(** * A shallow embedding of transmission_go_api (Go RPC client of the
    Transmission daemon) and the properties of its spec.

    Go strings are byte strings; they are modelled as [String.string], whose
    characters are 8-bit [ascii] values. *)

From Stdlib Require Import String Ascii List ZArith QArith Bool Lia DecimalString.
Import ListNotations.
#[local] Set Warnings "-register-all".
Open Scope list_scope.
Open Scope string_scope.

(** ** Go's [strings] helpers *)

Module GoStrings.

(** [strings.HasPrefix s p] *)
Definition HasPrefix (s p : string) : bool := String.prefix p s.

(** [strings.HasSuffix s suf]: [len(s) >= len(suf) && s[len(s)-len(suf):] == suf] *)
Definition HasSuffix (s suf : string) : bool :=
  (String.length suf <=? String.length s)%nat &&
  String.eqb (String.substring (String.length s - String.length suf)
                               (String.length suf) s) suf.

End GoStrings.
Import GoStrings.

(** ** The client record and its constructor *)

Definition csrfSessionHeader : string := "X-Transmission-Session-Id".

Record Transmission := mkTransmission {
  address : string;
  username : string;
  password : string;
  sessionId : string
}.

(** The client after [t.sessionId = v]. *)
Definition with_session (t : Transmission) (v : string) : Transmission :=
  mkTransmission (address t) (username t) (password t) v.

(** [New]: normalises the address and never returns an error (the Go code
    returns [nil] as the error on its only path; the log line is omitted). *)
Definition normalize_address (address0 : string) : string :=
  let a1 := if negb (HasPrefix address0 "http")
            then "http://" ++ address0 else address0 in
  if negb (HasSuffix a1 "/transmission/rpc")
  then a1 ++ "/transmission/rpc" else a1.

Definition New (address0 username0 password0 : string)
  : Transmission + string :=
  inl {| address := normalize_address address0;
         username := username0;
         password := password0;
         sessionId := "" |}.

(** ** JSON values and the Go values they decode into *)

(** A JSON document as [encoding/json] sees it after scanning. Number
    literals are kept apart by their shape: [JInt] for a literal without
    fraction or exponent (the only ones [strconv.ParseInt] accepts), [JFrac]
    for the others, by their exact rational value. *)
Inductive json : Type :=
| JNull
| JBool (b : bool)
| JInt (z : Z)
| JFrac (q : Q)
| JStr (s : string)
| JArr (l : list json)
| JObj (kvs : list (string * json)).

(** The Go types of the fields of [Torrent]. *)
Inductive go_type : Type :=
| TInt64 | TFloat64 | TString | TBool | TFiles | TFileStats | TInt64s.

Record File := mkFile {
  File_Name : string;
  File_BytesCompleted : Z;
  File_Length : Z
}.

Record FileStats := mkFileStats {
  FileStats_BytesCompleted : Z;
  FileStats_Wanted : bool;
  FileStats_Priority : Z
}.

Definition zero_File : File := mkFile "" 0 0.
Definition zero_FileStats : FileStats := mkFileStats 0 false 0.

(** The value held by one field of a [Torrent]. Go's [float64] is modelled
    by the rational value of the finite binary64 number it holds, in lowest
    terms (a negative zero is [0]); a Go slice by the list of its
    elements (a nil slice and an empty one are both [nil]); a Go pointer
    [*File] by [option File], [None] being [nil]. *)
Inductive go_value : Type :=
| VInt64 (z : Z)
| VFloat64 (q : Q)
| VString (s : string)
| VBool (b : bool)
| VFiles (l : list (option File))
| VFileStats (l : list (option FileStats))
| VInt64s (l : list Z).

Definition zero_value (ty : go_type) : go_value :=
  match ty with
  | TInt64 => VInt64 0
  | TFloat64 => VFloat64 0
  | TString => VString ""
  | TBool => VBool false
  | TFiles => VFiles []
  | TFileStats => VFileStats []
  | TInt64s => VInt64s []
  end.

(** The declaration of [type Torrent struct]: Go field name, JSON tag and
    type, in declaration order. *)
Definition Torrent_schema : list (string * string * go_type) := [
  ("ActivityDate", "activityDate", TInt64);
  ("AddedDate", "addedDate", TInt64);
  ("BandwidthPriority", "bandwidthPriority", TInt64);
  ("Comment", "comment", TString);
  ("CorruptEver", "corruptEver", TInt64);
  ("Creator", "creator", TString);
  ("DateCreated", "dateCreated", TInt64);
  ("DesiredAvailable", "desiredAvailable", TInt64);
  ("DoneDate", "doneDate", TInt64);
  ("DownloadDir", "downloadDir", TString);
  ("DownloadedEver", "downloadedEver", TInt64);
  ("DownloadLimit", "downloadLimit", TInt64);
  ("DownloadLimited", "downloadLimited", TBool);
  ("Error", "error", TInt64);
  ("ErrorString", "errorString", TString);
  ("Eta", "eta", TInt64);
  ("EtaIdle", "etaIdle", TInt64);
  ("Files", "files", TFiles);
  ("FileStats", "fileStats", TFileStats);
  ("HashString", "hashString", TString);
  ("HaveUnchecked", "haveUnchecked", TInt64);
  ("HaveValid", "haveValid", TInt64);
  ("HonorsSessionLimits", "honorsSessionLimits", TBool);
  ("Id", "id", TInt64);
  ("IsFinished", "isFinished", TBool);
  ("IsPrivate", "isPrivate", TBool);
  ("IsStalled", "isStalled", TBool);
  ("LeftUntilDone", "leftUntilDone", TInt64);
  ("MagnetLink", "magnetLink", TString);
  ("ManualAnnounceTime", "manualAnnounceTime", TInt64);
  ("MaxConnectedPeers", "maxConnectedPeers", TInt64);
  ("MetadataPercentComplete", "metadataPercentComplete", TFloat64);
  ("Name", "name", TString);
  ("PeerLimit", "peerLimit", TInt64);
  ("Peers", "peers", TInt64s);
  ("PeersConnected", "peersConnected", TInt64);
  ("PeersFrom", "peersFrom", TInt64);
  ("PeersGettingFromUs", "peersGettingFromUs", TInt64);
  ("PeersSendingToUs", "peersSendingToUs", TInt64);
  ("PercentDone", "percentDone", TFloat64);
  ("Pieces", "pieces", TString);
  ("PieceCount", "pieceCount", TInt64);
  ("PieceSize", "pieceSize", TInt64);
  ("Priorities", "priorities", TInt64s);
  ("QueuePosition", "queuePosition", TInt64);
  ("RateDownload", "rateDownload", TInt64);
  ("RateUpload", "rateUpload", TInt64);
  ("RecheckProgress", "recheckProgress", TFloat64);
  ("SecondsDownloading", "secondsDownloading", TInt64);
  ("SecondsSeeding", "secondsSeeding", TInt64);
  ("SeedIdleLimit", "seedIdleLimit", TInt64);
  ("SeedIdleMode", "seedIdleMode", TInt64);
  ("SeedRatioLimit", "seedRatioLimit", TFloat64);
  ("SeedRatioMode", "seedRatioMode", TInt64);
  ("SizeWhenDone", "sizeWhenDone", TInt64);
  ("StartDate", "startDate", TInt64);
  ("Status", "status", TInt64);
  ("Trackers", "trackers", TInt64);
  ("TrackerStats", "trackerStats", TInt64);
  ("TotalSize", "totalSize", TInt64);
  ("TorrentFile", "torrentFile", TString);
  ("UploadedEver", "uploadedEver", TInt64);
  ("UploadLimit", "uploadLimit", TInt64);
  ("UploadLimited", "uploadLimited", TBool);
  ("UploadRatio", "uploadRatio", TFloat64);
  ("Wanted", "wanted", TInt64);
  ("Webseeds", "webseeds", TInt64);
  ("WebseedsSendingToUs", "webseedsSendingToUs", TInt64)
].

(** A [Torrent] value: each field of the schema, by its Go name, with its
    value, in declaration order. *)
Definition Torrent := list (string * go_value).

Definition zero_Torrent : Torrent :=
  map (fun '(n, _, ty) => (n, zero_value ty)) Torrent_schema.

Definition Torrent_tags : list string :=
  map (fun '(_, tag, _) => tag) Torrent_schema.

(** The field of a [Torrent] by its Go name. *)
Definition torrent_field (t : Torrent) (n : string) : option go_value :=
  match find (fun '(n', _) => String.eqb n n') t with
  | Some (_, v) => Some v
  | None => None
  end.

Definition set_field (n : string) (v : go_value) (t : Torrent) : Torrent :=
  map (fun '(n', v') => if String.eqb n n' then (n', v) else (n', v')) t.

(** ** Decoding with [encoding/json] *)

Module Decode.

Notation "x <- m ;; k" :=
  (match m with inl x => k | inr e => inr e end)
  (at level 61, m at next level, right associativity).

(** Key folding used to match an object key against a field's JSON name:
    ASCII letters are compared case-insensitively, and the two non-ASCII runes
    whose simple case folding reaches an ASCII letter, U+017F (long s) and
    U+212A (Kelvin sign), fold to [s] and [k]. Field names here are ASCII, so
    this is exactly the match [encoding/json] makes against them. *)
Definition lower (c : ascii) : ascii :=
  let n := nat_of_ascii c in
  if (65 <=? n)%nat && (n <=? 90)%nat then ascii_of_nat (n + 32) else c.

Fixpoint fold_key (l : list ascii) : list ascii :=
  match l with
  | [] => []
  | c1 :: rest =>
      match rest with
      | c2 :: rest2 =>
          if Ascii.eqb c1 "197"%char && Ascii.eqb c2 "191"%char
          then "s"%char :: fold_key rest2
          else match rest2 with
               | c3 :: rest3 =>
                   if Ascii.eqb c1 "226"%char && Ascii.eqb c2 "132"%char
                      && Ascii.eqb c3 "170"%char
                   then "k"%char :: fold_key rest3
                   else lower c1 :: fold_key rest
               | [] => lower c1 :: fold_key rest
               end
      | [] => [lower c1]
      end
  end.

Definition key_matches (key name : string) : bool :=
  if String.eqb key name then true
  else String.eqb (string_of_list_ascii (fold_key (list_ascii_of_string key)))
                  (string_of_list_ascii (fold_key (list_ascii_of_string name))).

Definition jkind (j : json) : string :=
  match j with
  | JNull => "null" | JBool _ => "bool" | JInt _ | JFrac _ => "number"
  | JStr _ => "string" | JArr _ => "array" | JObj _ => "object"
  end.

(** An [UnmarshalTypeError]; its exact wording is not modelled. *)
Definition type_error (j : json) (ty : string) : string :=
  "json: cannot unmarshal " ++ jkind j ++ " into Go value of type " ++ ty.

Definition int64_in_range (z : Z) : bool :=
  (- 2 ^ 63 <=? z)%Z && (z <? 2 ^ 63)%Z.

(** Each scalar decoder takes the current value: JSON [null] leaves it. *)
Definition decode_int64 (j : json) (cur : Z) : Z + string :=
  match j with
  | JNull => inl cur
  | JInt z => if int64_in_range z then inl z else inr (type_error j "int64")
  | _ => inr (type_error j "int64")
  end.

(** [strconv.ParseFloat(s, 64)] on a number literal of value [q]: the
    nearest binary64 number, ties to even, subnormals included (an underflow
    gives [0] and no error), or [None] for its range error when that nearest
    number is beyond the largest finite one. [n / (d * 2^e)] is scaled into
    [[2^52, 2^53)], or the exponent is clamped to the subnormal one, and
    rounded to the integer mantissa [m]. *)
Definition float64_of (q : Q) : option Q :=
  let n := Z.abs (Qnum q) in
  let d := Zpos (Qden q) in
  let scaled (e : Z) := if (0 <=? e)%Z then (n, d * 2 ^ e)%Z else (n * 2 ^ (- e), d)%Z in
  if (n =? 0)%Z then Some 0%Q else
  let e0 := (Z.log2 n - Z.log2 d - 52)%Z in
  let e1 := let '(a, b) := scaled e0 in if (a <? b * 2 ^ 52)%Z then (e0 - 1)%Z else e0 in
  let e := Z.max e1 (-1074) in
  let '(a, b) := scaled e in
  let m0 := (a / b)%Z in
  let rem := (a mod b)%Z in
  let m := if (b <? 2 * rem)%Z || ((2 * rem =? b)%Z && Z.odd m0) then (m0 + 1)%Z else m0 in
  if (1024 <=? e + Z.log2 m)%Z then None
  else
    let v := if (0 <=? e)%Z then inject_Z (m * 2 ^ e) else Qmake m (Z.to_pos (2 ^ (- e))) in
    Some (Qred (if (Qnum q <? 0)%Z then Qopp v else v)).

(** [literalStore] into a [float64]: a [ParseFloat] error is reported as
    an [UnmarshalTypeError]. *)
Definition decode_float64 (j : json) (cur : Q) : Q + string :=
  match j with
  | JNull => inl cur
  | JInt z =>
      match float64_of (inject_Z z) with Some f => inl f | None => inr (type_error j "float64") end
  | JFrac q =>
      match float64_of q with Some f => inl f | None => inr (type_error j "float64") end
  | _ => inr (type_error j "float64")
  end.

Definition decode_string (j : json) (cur : string) : string + string :=
  match j with
  | JNull => inl cur
  | JStr s => inl s
  | _ => inr (type_error j "string")
  end.

Definition decode_bool (j : json) (cur : bool) : bool + string :=
  match j with
  | JNull => inl cur
  | JBool b => inl b
  | _ => inr (type_error j "bool")
  end.

(** The elements of a JSON array into a slice: element [i] is decoded into
    the slice's element [i] when there is one, into a zero value otherwise;
    the slice ends up as long as the array. *)
Fixpoint decode_elems {A} (d : json -> A -> A + string) (z : A)
    (js : list json) (cur : list A) : list A + string :=
  match js with
  | [] => inl []
  | j :: js' =>
      let '(c, cur') := match cur with [] => (z, []) | c :: r => (c, r) end in
      x <- d j c ;; xs <- decode_elems d z js' cur' ;; inl (x :: xs)
  end.

Definition decode_slice {A} (ty : string) (d : json -> A -> A + string) (z : A)
    (j : json) (cur : list A) : list A + string :=
  match j with
  | JNull => inl []
  | JArr js => decode_elems d z js cur
  | _ => inr (type_error j ty)
  end.

(** A pointer to a struct: [null] makes it nil; an object is decoded into the
    pointed-to value, allocated first when the pointer is nil. *)
Definition decode_ptr {A} (ty : string) (d : list (string * json) -> A -> A + string)
    (z : A) (j : json) (cur : option A) : option A + string :=
  match j with
  | JNull => inl None
  | JObj kvs => a <- d kvs (match cur with Some a => a | None => z end) ;; inl (Some a)
  | _ => inr (type_error j ty)
  end.

(** The members of an object, in order; unknown keys are skipped. *)
Fixpoint fold_kvs {S} (step : string -> json -> S -> S + string)
    (kvs : list (string * json)) (s : S) : S + string :=
  match kvs with
  | [] => inl s
  | (k, j) :: kvs' => s' <- step k j s ;; fold_kvs step kvs' s'
  end.

Definition decode_struct {S} (ty : string) (step : string -> json -> S -> S + string)
    (j : json) (cur : S) : S + string :=
  match j with
  | JNull => inl cur
  | JObj kvs => fold_kvs step kvs cur
  | _ => inr (type_error j ty)
  end.

End Decode.
Import Decode.

(** [File] and [FileStats] members, by their JSON names. *)
Definition File_step (k : string) (j : json) (f : File) : File + string :=
  if key_matches k "name" then
    s <- decode_string j (File_Name f) ;; inl (mkFile s (File_BytesCompleted f) (File_Length f))
  else if key_matches k "bytesCompleted" then
    z <- decode_int64 j (File_BytesCompleted f) ;; inl (mkFile (File_Name f) z (File_Length f))
  else if key_matches k "length" then
    z <- decode_int64 j (File_Length f) ;; inl (mkFile (File_Name f) (File_BytesCompleted f) z)
  else inl f.

Definition FileStats_step (k : string) (j : json) (f : FileStats) : FileStats + string :=
  if key_matches k "bytesCompleted" then
    z <- decode_int64 j (FileStats_BytesCompleted f) ;;
    inl (mkFileStats z (FileStats_Wanted f) (FileStats_Priority f))
  else if key_matches k "wanted" then
    b <- decode_bool j (FileStats_Wanted f) ;;
    inl (mkFileStats (FileStats_BytesCompleted f) b (FileStats_Priority f))
  else if key_matches k "priority" then
    z <- decode_int64 j (FileStats_Priority f) ;;
    inl (mkFileStats (FileStats_BytesCompleted f) (FileStats_Wanted f) z)
  else inl f.

(** One field of [Torrent], decoded into its current value. A [Torrent]
    built from [zero_Torrent] holds in each field a value of the field's
    type, so the last case is never taken. *)
Definition decode_field (ty : go_type) (j : json) (cur : go_value) : go_value + string :=
  match ty, cur with
  | TInt64, VInt64 z => z' <- decode_int64 j z ;; inl (VInt64 z')
  | TFloat64, VFloat64 q => q' <- decode_float64 j q ;; inl (VFloat64 q')
  | TString, VString s => s' <- decode_string j s ;; inl (VString s')
  | TBool, VBool b => b' <- decode_bool j b ;; inl (VBool b')
  | TFiles, VFiles l =>
      l' <- decode_slice "[]*transmission_go_api.File"
              (decode_ptr "transmission_go_api.File" (fold_kvs File_step) zero_File)
              None j l ;; inl (VFiles l')
  | TFileStats, VFileStats l =>
      l' <- decode_slice "[]*transmission_go_api.FileStats"
              (decode_ptr "transmission_go_api.FileStats" (fold_kvs FileStats_step) zero_FileStats)
              None j l ;; inl (VFileStats l')
  | TInt64s, VInt64s l =>
      l' <- decode_slice "[]int64" decode_int64 0%Z j l ;; inl (VInt64s l')
  | _, _ => inl cur
  end.

(** The field a key selects: the first one of the declaration whose JSON
    name matches the key. *)
Definition Torrent_lookup (k : string) : option (string * string * go_type) :=
  find (fun '(_, tag, _) => key_matches k tag) Torrent_schema.

Definition Torrent_step (k : string) (j : json) (t : Torrent) : Torrent + string :=
  match Torrent_lookup k with
  | None => inl t
  | Some (n, _, ty) =>
      match torrent_field t n with
      | None => inl t
      | Some cur => v <- decode_field ty j cur ;; inl (set_field n v t)
      end
  end.

(** An element of [[]*Torrent]. *)
Definition decode_torrent_ptr : json -> option Torrent -> option Torrent + string :=
  decode_ptr "transmission_go_api.Torrent" (fold_kvs Torrent_step) zero_Torrent.

(** ** Response envelopes *)

Record responseBase := mkResponseBase { Result : string; Tag : Z }.

Definition zero_responseBase : responseBase := mkResponseBase "" 0.

Record getResponsePayload := mkGetResponsePayload {
  Torrents : list (option Torrent)
}.

(** [getResponse] embeds [*responseBase] (nil in the value [ListAll]
    decodes into) and has the pointer [Arguments]. *)
Record getResponse := mkGetResponse {
  getResponse_base : option responseBase;
  getResponse_Arguments : option getResponsePayload
}.

Record torrentRequestsResponse := mkTorrentRequestsResponse {
  torrentRequestsResponse_base : option responseBase
}.

(** What [encoding/json] does with a member promoted from a nil embedded
    pointer to an unexported struct type. Up to Go 1.9 the decoder allocated
    the struct; since Go 1.10 it cannot set the unexported pointer and
    reports an error, [Go110 msg], whose text [msg] depends on the release
    (Go 1.10's is [go110_embedded_msg] of [Scenarios]). Decoding returns the
    first error met in member order: the model stops there, Go skips the
    rest or decodes it without keeping a later error, and [doRPC] discards
    the value either way. *)
Inductive json_rules := PreGo110 | Go110 (msg : string).

Definition responseBase_step (k : string) (j : json) (rb : responseBase)
  : option (responseBase + string) :=
  if key_matches k "result" then
    Some (s <- decode_string j (Result rb) ;; inl (mkResponseBase s (Tag rb)))
  else if key_matches k "tag" then
    Some (z <- decode_int64 j (Tag rb) ;; inl (mkResponseBase (Result rb) z))
  else None.

(** A member of an envelope that may be promoted from [*responseBase]:
    [None] when the key names none of its fields. *)
Definition embedded_step (rules : json_rules) (k : string) (j : json)
    (b : option responseBase) : option (option responseBase + string) :=
  match responseBase_step k j (match b with Some rb => rb | None => zero_responseBase end) with
  | None => None
  | Some r =>
      match b, rules with
      | None, Go110 msg => Some (inr msg)
      | _, _ => Some (rb' <- r ;; inl (Some rb'))
      end
  end.

Definition getResponsePayload_step (k : string) (j : json) (p : getResponsePayload)
  : getResponsePayload + string :=
  if key_matches k "torrents" then
    l <- decode_slice "[]*transmission_go_api.Torrent" decode_torrent_ptr None j (Torrents p) ;;
    inl (mkGetResponsePayload l)
  else inl p.

Definition getResponse_step (rules : json_rules) (k : string) (j : json) (r : getResponse)
  : getResponse + string :=
  match embedded_step rules k j (getResponse_base r) with
  | Some res => b <- res ;; inl (mkGetResponse b (getResponse_Arguments r))
  | None =>
      if key_matches k "arguments" then
        a <- decode_ptr "transmission_go_api.getResponsePayload" (fold_kvs getResponsePayload_step)
               (mkGetResponsePayload []) j (getResponse_Arguments r) ;;
        inl (mkGetResponse (getResponse_base r) a)
      else inl r
  end.

Definition torrentRequestsResponse_step (rules : json_rules) (k : string) (j : json)
    (r : torrentRequestsResponse) : torrentRequestsResponse + string :=
  match embedded_step rules k j (torrentRequestsResponse_base r) with
  | Some res => b <- res ;; inl (mkTorrentRequestsResponse b)
  | None => inl r
  end.

(** [dec.Decode(resp)] for [resp := &getResponse{}] and
    [resp := &torrentRequestsResponse{}]. *)
Definition decode_getResponse (rules : json_rules) (j : json) : getResponse + string :=
  decode_struct "transmission_go_api.getResponse" (getResponse_step rules) j
    (mkGetResponse None None).

Definition decode_torrentRequestsResponse (rules : json_rules) (j : json)
  : torrentRequestsResponse + string :=
  decode_struct "transmission_go_api.torrentRequestsResponse"
    (torrentRequestsResponse_step rules) j (mkTorrentRequestsResponse None).

(** ** [fmt.Errorf(format)] with no operands *)

(** [fmt]'s [doPrintf] run on a format and an empty operand list: text is
    copied, [%%] gives [%], and every other verb, having no operand, prints
    [%!v(MISSING)] (or [%!v(BADINDEX)] after an explicit index); a [*] width
    or precision prints [%!(BADWIDTH)] / [%!(BADPREC)], and a format ending
    inside a verb prints [%!(NOVERB)] and stops. *)
Module GoFmt.

Local Open Scope nat_scope.
Local Open Scope string_scope.
Local Open Scope list_scope.

Definition ch (c : ascii) (d : ascii) : bool := Ascii.eqb c d.

Definition is_digit (c : ascii) : bool :=
  let n := nat_of_ascii c in (48 <=? n)%nat && (n <=? 57)%nat.

Definition is_flag (c : ascii) : bool :=
  ch c "#" || ch c "0" || ch c "+" || ch c "-" || ch c " ".

Fixpoint skip_flags (s : list ascii) : list ascii :=
  match s with
  | c :: s' => if is_flag c then skip_flags s' else s
  | [] => []
  end.

(** [parsenum] up to the end of [s]: whether a number was read, and what
    follows it. A number past [1e6] still followed by a digit makes
    [parsenum] give up and return the end of the format. *)
Fixpoint parsenum_from (num : Z) (isnum : bool) (s : list ascii) : bool * list ascii :=
  match s with
  | c :: s' =>
      if is_digit c then
        if (1000000 <? num)%Z then (false, [])
        else parsenum_from (num * 10 + Z.of_nat (nat_of_ascii c - 48))%Z true s'
      else (isnum, s)
  | [] => (isnum, [])
  end.

Definition parsenum (s : list ascii) : bool * list ascii := parsenum_from 0%Z false s.

(** [parseArgNumber] on [s] (which starts with ['[']): whether the index is
    well formed and how many bytes it takes. *)
Fixpoint close_bracket (k : nat) (s : list ascii) : option nat :=
  match s with
  | c :: s' => if ch c "]" then Some k else close_bracket (S k) s'
  | [] => None
  end.

Definition parseArgNumber (s : list ascii) : bool * nat :=
  if (length s <? 3)%nat then (false, 1%nat)
  else match close_bracket 1 (tl s) with
       | None => (false, 1%nat)
       | Some j =>
           let digits := firstn (j - 1) (tl s) in
           let '(ok, rest) := parsenum digits in
           (ok && Nat.eqb (length rest) 0, S j)
       end.

(** [argNumber] with no operands: an explicit index [[n]] is always out of
    range, so it clears [goodArgNum]. Gives the new [goodArgNum], the rest of
    the format and [found]. *)
Definition argNumber (good : bool) (s : list ascii) : bool * list ascii * bool :=
  match s with
  | c :: _ =>
      if ch c "[" then let '(ok, wid) := parseArgNumber s in (false, skipn wid s, ok)
      else (good, s, false)
  | [] => (good, s, false)
  end.

(** The verb: one byte when ASCII, else the UTF-8 sequence it starts
    ([utf8.DecodeRuneInString]); an invalid sequence is one byte read as
    U+FFFD. Gives the bytes [writeRune] prints and the rest. *)
Definition in_range (c : ascii) (lo hi : nat) : bool :=
  let n := nat_of_ascii c in (lo <=? n)%nat && (n <=? hi)%nat.

Definition utf8_size (s : list ascii) : option nat :=
  match s with
  | c0 :: rest =>
      let n0 := nat_of_ascii c0 in
      let cont (sz lo hi : nat) :=
        match rest with
        | c1 :: rest1 =>
            if negb (in_range c1 lo hi) then None
            else if (sz <=? 2)%nat then Some 2%nat
            else match rest1 with
                 | c2 :: rest2 =>
                     if negb (in_range c2 128 191) then None
                     else if (sz <=? 3)%nat then Some 3%nat
                     else match rest2 with
                          | c3 :: _ => if in_range c3 128 191 then Some 4%nat else None
                          | [] => None
                          end
                 | [] => None
                 end
        | [] => None
        end in
      if (n0 <? 128)%nat then Some 1%nat
      else if in_range c0 194 223 then cont 2 128 191
      else if (n0 =? 224)%nat then cont 3 160 191
      else if in_range c0 225 236 then cont 3 128 191
      else if (n0 =? 237)%nat then cont 3 128 159
      else if in_range c0 238 239 then cont 3 128 191
      else if (n0 =? 240)%nat then cont 4 144 191
      else if in_range c0 241 243 then cont 4 128 191
      else if (n0 =? 244)%nat then cont 4 128 143
      else None
  | [] => None
  end.

Definition rune_error : list ascii := ["239"%char; "191"%char; "189"%char].

Definition decode_verb (s : list ascii) : list ascii * list ascii :=
  match utf8_size s with
  | Some k => (firstn k s, skipn k s)
  | None => (rune_error, tl s)
  end.

Definition lit (s : string) : list ascii := list_ascii_of_string s.

Fixpoint span_text (s : list ascii) : list ascii * list ascii :=
  match s with
  | c :: s' => if ch c "%" then ([], s) else let '(t, r) := span_text s' in (c :: t, r)
  | [] => ([], [])
  end.

(** One verb, [s] being what follows its [%]: the text printed, and
    [Some rest] to go on or [None] when [%!(NOVERB)] ended the loop. *)
Definition one_verb (s : list ascii) : list ascii * option (list ascii) :=
  let s0 := skip_flags s in
  let '(good1, s1, ai1) := argNumber true s0 in
  let '(out_w, s2, ai2, good2) :=
    match s1 with
    | c :: s1' =>
        if ch c "*" then (lit "%!(BADWIDTH)", s1', false, good1)
        else let '(isnum, s1'') := parsenum s1 in ([], s1'', ai1, good1 && negb (ai1 && isnum))
    | [] => ([], [], ai1, good1)
    end in
  let '(out_p, s3, ai3, good3) :=
    match s2 with
    | c :: ((_ :: _) as s2') =>
        if ch c "." then
          let '(good', s2'', ai) := argNumber (good2 && negb ai2) s2' in
          match s2'' with
          | c' :: s' =>
              if ch c' "*" then (lit "%!(BADPREC)", s', false, good')
              else let '(_, s'') := parsenum s2'' in ([], s'', ai, good')
          | [] => ([], [], ai, good')
          end
        else ([], s2, ai2, good2)
    | _ => ([], s2, ai2, good2)
    end in
  let '(good4, s4) :=
    if ai3 then (good3, s3) else let '(g, s', _) := argNumber good3 s3 in (g, s') in
  match s4 with
  | [] => (out_w ++ out_p ++ lit "%!(NOVERB)", None)
  | c :: _ =>
      let '(verb, s5) := decode_verb s4 in
      let out :=
        if ch c "%" then lit "%"
        else if good4 then lit "%!" ++ verb ++ lit "(MISSING)"
        else lit "%!" ++ verb ++ lit "(BADINDEX)" in
      (out_w ++ out_p ++ out, Some s5)
  end.

Fixpoint doPrintf0 (fuel : nat) (s : list ascii) : list ascii :=
  match fuel with
  | O => []
  | S fuel' =>
      let '(text, rest) := span_text s in
      text ++ match rest with
              | [] => []
              | _ :: after =>
                  let '(out, k) := one_verb after in
                  out ++ match k with
                         | Some s' => doPrintf0 fuel' s'
                         | None => []
                         end
              end
  end.

(** The message of [fmt.Errorf(format)]. *)
Definition Errorf (format : string) : string :=
  let s := list_ascii_of_string format in
  string_of_list_ascii (doPrintf0 (S (length s)) s).

End GoFmt.

(** ** HTTP exchanges and the client's state *)

(** A request as [postRequest] hands it to [cli.Do]: its body is the
    request envelope [json.Marshal] encodes (marshalling the request types
    of this package cannot fail), its session header
    [Header[X-Transmission-Session-Id]] is a list of values. *)
Record HttpRequest := mkHttpRequest {
  hr_method : string;
  hr_url : string;
  hr_body : json;
  hr_session : list string;
  hr_basic_auth : option (string * string)
}.

(** The body of a response as [ioutil.ReadAll] and [Decoder.Decode] see it:
    the first JSON value it holds, or the error of reading it, or the
    decoder's syntax error. *)
Inductive http_body :=
| BodyJSON (j : json)
| BodyInvalid (err : string)
| BodyUnreadable (err : string).

(** [session_header] is [httpResp.Header[csrfSessionHeader]]: [None] when
    the map has no such key. *)
Record HttpResponse := mkHttpResponse {
  StatusCode : Z;
  session_header : option (list string);
  Body : http_body
}.

(** What [cli.Do] returns. *)
Inductive transport :=
| TResp (r : HttpResponse)
| TErr (err : string).

(** How a Go call ends: a value, a returned [error], or a run-time panic. *)
Inductive outcome (A : Type) :=
| Ok (a : A)
| Err (e : string)
| Panic (msg : string).
Arguments Ok {A} a.
Arguments Err {A} e.
Arguments Panic {A} msg.

(** The state a call runs in: the client object ([*Transmission], which
    the methods mutate) and every request handed to [cli.Do] so far. *)
Record World := mkWorld {
  client : Transmission;
  sent : list HttpRequest
}.

Definition M (A : Type) : Type := World -> outcome A * World.

Definition ret {A} (a : A) : M A := fun w => (Ok a, w).
Definition fail {A} (e : string) : M A := fun w => (Err e, w).
Definition panic {A} (msg : string) : M A := fun w => (Panic msg, w).

Definition bind {A B} (m : M A) (k : A -> M B) : M B :=
  fun w =>
    match m w with
    | (Ok a, w') => k a w'
    | (Err e, w') => (Err e, w')
    | (Panic p, w') => (Panic p, w')
    end.

Notation "'let*' x ':=' m 'in' k" := (bind m (fun x => k))
  (at level 200, x name, m at level 100, right associativity).

Definition setSessionId (v : string) : M unit :=
  fun w => (Ok tt, mkWorld (with_session (client w) v) (sent w)).

Definition nil_deref : string :=
  "runtime error: invalid memory address or nil pointer dereference".

(** ** Request envelopes ([json.Marshal] of the request structs) *)

Definition ListAll_fields : list string := [
  "name"; "id"; "totalSize"; "eta"; "status"; "percentDone"; "activityDate";
  "addedDate"; "bandwidthPriority"; "comment"; "corruptEver"; "creator";
  "dateCreated"; "desiredAvailable"; "doneDate"; "downloadDir";
  "downloadedEver"; "downloadLimit"; "downloadLimited"; "error";
  "errorString"; "eta"; "etaIdle"; "files"; "fileStats"; "hashString";
  "haveUnchecked"; "haveValid"; "honorsSessionLimits"; "id"; "isFinished";
  "isPrivate"; "isStalled"; "leftUntilDone"; "magnetLink";
  "manualAnnounceTime"; "maxConnectedPeers"; "metadataPercentComplete";
  "name"; "peerLimit"; "percentDone"; "pieces"; "pieceCount"; "pieceSize";
  "rateDownload"; "rateUpload"; "recheckProgress"; "secondsDownloading";
  "secondsSeeding"; "seedIdleLimit"; "seedIdleMode"; "seedRatioLimit";
  "seedRatioMode"; "sizeWhenDone"; "startDate"; "status"; "totalSize";
  "torrentFile"; "uploadedEver"; "uploadLimit"; "uploadLimited";
  "uploadRatio"; "webseedsSendingToUs"
].

(** [requestBase] is embedded first, so [method] and [tag] come first;
    [omitempty] drops an empty method and empty [ids] or [fields]. *)
Definition marshal_requestBase (method : string) (tag : Z) : list (string * json) :=
  (if String.eqb method "" then [] else [("method", JStr method)]) ++
  (if Z.eqb tag 0 then [] else [("tag", JInt tag)]).

Definition marshal_getRequest (ids : list Z) (fields : list string) : json :=
  JObj (marshal_requestBase "torrent-get" 1 ++
        [("arguments", JObj ((match ids with [] => [] | _ => [("ids", JArr (map JInt ids))] end) ++
                             (match fields with [] => [] | _ => [("fields", JArr (map JStr fields))] end)))]).

Definition marshal_torrentRequestsRequest (method : string) (ids : list Z) : json :=
  JObj (marshal_requestBase method 1 ++
        [("arguments", JObj (match ids with [] => [] | _ => [("ids", JArr (map JInt ids))] end))]).

(** ** [fmt.Sprintf] with operands *)

(** [fmt]'s [doPrintf] for formats whose verbs carry no flag, width,
    precision or argument index, on operands of type [string], [int64] and
    [error]. Each verb takes the next operand; [%%] prints [%] and takes
    none; a verb the operand's type does not accept prints
    [%!verb(type=value)], a verb with no operand left [%!verb(MISSING)], a
    final lone [%] [%!(NOVERB)], and operands left over
    [%!(EXTRA type=value, ...)]. [None] marks what the model leaves out: a
    verb with flags, width, precision or index, a non-ASCII verb, the verbs
    [T], [p] and [w], a verb that formats the operand otherwise than [%v]
    does (such as [x] or [q]), and an [error] operand under a verb other
    than [v] and [s] or left over. *)
Module GoSprintf.

Local Open Scope string_scope.

(** An operand: a [string], an [int64], or an [error] given by the text of
    its [Error] method. *)
Inductive arg :=
| AString (s : string)
| AInt64 (z : Z)
| AError (e : string).

(** [strconv]'s decimal form of an integer. *)
Definition dec (z : Z) : string := NilZero.string_of_int (Z.to_int z).

Definition one_of (c : ascii) (cs : string) : bool :=
  existsb (Ascii.eqb c) (list_ascii_of_string cs).

(** [badVerb]: the operand printed with [%v], after its type. *)
Definition bad_verb (verb : ascii) (ty value : string) : string :=
  "%!" ++ String verb ("(" ++ ty ++ "=" ++ value ++ ")").

(** [printArg(arg, verb)]: [fmtString] accepts [v s x X q], [fmtInteger]
    accepts [v d b o O x X c q U]; any other verb is a bad verb. *)
Definition print_arg (verb : ascii) (a : arg) : option string :=
  if one_of verb "Tpw" then None else
  match a with
  | AString s =>
      if one_of verb "vs" then Some s
      else if one_of verb "xXq" then None
      else Some (bad_verb verb "string" s)
  | AInt64 z =>
      if one_of verb "vd" then Some (dec z)
      else if one_of verb "bcoOqxXU" then None
      else Some (bad_verb verb "int64" (dec z))
  | AError e => if one_of verb "vs" then Some e else None
  end.

Fixpoint extra_args (args : list arg) : option (list string) :=
  match args with
  | [] => Some []
  | a :: rest =>
      match a, extra_args rest with
      | AString s, Some xs => Some (("string=" ++ s) :: xs)
      | AInt64 z, Some xs => Some (("int64=" ++ dec z) :: xs)
      | _, _ => None
      end
  end.

Definition extra (args : list arg) : option string :=
  match args with
  | [] => Some ""
  | _ => option_map (fun xs => "%!(EXTRA " ++ String.concat ", " xs ++ ")") (extra_args args)
  end.

(** A verb read right after its [%]: no flag, width, precision or index,
    and a one-byte rune. *)
Definition plain_verb (c : ascii) : bool :=
  negb (one_of c "#+- 0123456789.*[") && (nat_of_ascii c <? 128)%nat.

Fixpoint sprintf (s : list ascii) (args : list arg) : option string :=
  match s with
  | [] => extra args
  | c :: s' =>
      if Ascii.eqb c "%" then
        match s' with
        | [] => option_map (append "%!(NOVERB)") (extra args)
        | v :: s'' =>
            if Ascii.eqb v "%" then option_map (String "%"%char) (sprintf s'' args)
            else if negb (plain_verb v) then None
            else match args with
                 | [] => option_map (append ("%!" ++ String v "(MISSING)")) (sprintf s'' [])
                 | a :: rest =>
                     match print_arg v a, sprintf s'' rest with
                     | Some x, Some y => Some (x ++ y)
                     | _, _ => None
                     end
                 end
        end
      else option_map (String c) (sprintf s' args)
  end.

Definition Sprintf (format : string) (args : list arg) : option string :=
  sprintf (list_ascii_of_string format) args.

(** The text [fmt.Printf(format, args...)] or [log.Fatalf(format, args...)]
    writes. Every call of the repository is within the model
    ([Sprintf] gives [Some]), so the [""] case is not taken. *)
Definition printed (format : string) (args : list arg) : string :=
  match Sprintf format args with Some s => s | None => "" end.

End GoSprintf.

(** ** Reading fields of a [*Torrent] *)

(** [t.Id], [t.Name], [t.Status]: the value of the field. A [Torrent] built
    from [zero_Torrent] holds in each field a value of the field's type, so
    the defaults are never taken. *)
Definition Torrent_int64 (t : Torrent) (n : string) : Z :=
  match torrent_field t n with Some (VInt64 z) => z | _ => 0%Z end.

Definition Torrent_string (t : Torrent) (n : string) : string :=
  match torrent_field t n with Some (VString s) => s | _ => "" end.

(** [torrentsToIds]: the [Id] of each torrent, in order; [t.Id] on a nil
    element panics, which [None] stands for. *)
Fixpoint torrentsToIds (torrents : list (option Torrent)) : option (list Z) :=
  match torrents with
  | [] => Some []
  | None :: _ => None
  | Some t :: rest =>
      match torrentsToIds rest with
      | Some ids => Some (Torrent_int64 t "Id" :: ids)
      | None => None
      end
  end.

(** ** The RPC client *)

Section Client.

(** The decoding rules of the Go release the package is built with. *)
Variable rules : json_rules.
(** Whether [http.NewRequest("POST", address, body)] succeeds, i.e. whether
    [net/url] parses the address. *)
Variable url_ok : string -> bool.
(** The daemon and the network: the answer [cli.Do] gets for a request,
    given the requests sent before it. *)
Variable srv : list HttpRequest -> HttpRequest -> transport.

(** The request [postRequest] builds from the client [t]: the session header
    holds the one value [t.sessionId], and basic authentication is set when
    both the user name and the password are non-empty. *)
Definition build_request (t : Transmission) (req : json) : HttpRequest :=
  {| hr_method := "POST";
     hr_url := address t;
     hr_body := req;
     hr_session := [sessionId t];
     hr_basic_auth :=
       if negb (String.eqb (username t) "") && negb (String.eqb (password t) "")
       then Some (username t, password t) else None |}.

(** [postRequest]: [http.NewRequest] is called, then the session header is
    written into the request it returned, and only then is its error
    checked. When [NewRequest] fails the request is [nil], and the header
    write panics. *)
Definition postRequest (req : json) : M HttpResponse :=
  fun w =>
    let t := client w in
    if url_ok (address t) then
      let h := build_request t req in
      let w' := mkWorld t (sent w ++ [h]) in
      match srv (sent w) h with
      | TResp r => (Ok r, w')
      | TErr e => (Err e, w')
      end
    else (Panic nil_deref, w).

(** [doRPC]: post, retry once after a 409 carrying exactly one session id,
    read and decode the body. *)
Definition doRPC {R : Type} (decode : json -> R + string) (req : json) : M R :=
  let* r1 := postRequest req in
  let* httpResp :=
    (if Z.eqb (StatusCode r1) 409 then
       match session_header r1 with
       | None => fail ("409 response without " ++ csrfSessionHeader)
       | Some [v] => let* _u := setSessionId v in postRequest req
       | Some _ => fail ("409 with " ++ csrfSessionHeader ++ ", but value is empty")
       end
     else ret r1) in
  match Body httpResp with
  | BodyUnreadable e => fail e
  | BodyInvalid e => fail e
  | BodyJSON j =>
      match decode j with
      | inl v => ret v
      | inr e => fail e
      end
  end.

(** [ListAll]. [resp.Result] reads through the embedded [*responseBase] and
    [resp.Arguments.Torrents] through [Arguments]: each panics on [nil]. *)
Definition ListAll : M (list (option Torrent)) :=
  let* resp := doRPC (decode_getResponse rules) (marshal_getRequest [] ListAll_fields) in
  match getResponse_base resp with
  | None => panic nil_deref
  | Some rb =>
      if negb (String.eqb (Result rb) "success") then fail (GoFmt.Errorf (Result rb))
      else match getResponse_Arguments resp with
           | None => panic nil_deref
           | Some p => ret (Torrents p)
           end
  end.

Definition torrentRequests (method : string) (ids : list Z) : M unit :=
  match ids with
  | [] => ret tt
  | _ =>
      let* resp := doRPC (decode_torrentRequestsResponse rules)
                         (marshal_torrentRequestsRequest method ids) in
      match torrentRequestsResponse_base resp with
      | None => panic nil_deref
      | Some rb =>
          if negb (String.eqb (Result rb) "success") then fail (GoFmt.Errorf (Result rb))
          else ret tt
      end
  end.

Definition Start (ids : list Z) : M unit := torrentRequests "torrent-start" ids.
Definition StartNow (ids : list Z) : M unit := torrentRequests "torrent-start-now" ids.
Definition Stop (ids : list Z) : M unit := torrentRequests "torrent-stop" ids.
Definition Verify (ids : list Z) : M unit := torrentRequests "torrent-verify" ids.
Definition Reannounce (ids : list Z) : M unit := torrentRequests "torrent-reannounce" ids.
Definition Remove (ids : list Z) : M unit := torrentRequests "torrent-remove" ids.


(** The [*Torrents] variants: [torrentsToIds] runs first, so a nil element
    panics before any request. *)
Definition with_torrent_ids (op : list Z -> M unit) (torrents : list (option Torrent))
  : M unit :=
  match torrentsToIds torrents with
  | None => panic nil_deref
  | Some ids => op ids
  end.

Definition StartTorrents := with_torrent_ids Start.
Definition StartNowTorrents := with_torrent_ids StartNow.
Definition StopTorrents := with_torrent_ids Stop.
Definition VerifyTorrents := with_torrent_ids Verify.
Definition ReannounceTorrents := with_torrent_ids Reannounce.
Definition RemoveTorrents := with_torrent_ids Remove.

End Client.

(** ** The command-line tools *)

(** How a run of a command ends: normally, through [log.Fatalf] with its
    message (written to standard error, then exit status 1; the log prefix
    is not modelled), or by a run-time panic. *)
Inductive exit_code :=
| Exit0
| ExitFatal (msg : string)
| ExitPanic (msg : string).

(** [for _, torrent := range torrents { fmt.Printf(...) }], [line] being the
    text printed for one torrent: the texts printed, and the panic of a nil
    element, whose fields cannot be read. *)
Fixpoint print_each (line : Torrent -> string) (torrents : list (option Torrent))
  : list string * option string :=
  match torrents with
  | [] => ([], None)
  | None :: _ => ([], Some nil_deref)
  | Some t :: rest => let '(out, p) := print_each line rest in (line t :: out, p)
  end.

(** [src/tools/transmission_cli.go]: list the torrents. The flags
    [-address], [-username] and [-password] are the arguments. *)
Module TransmissionCli.
Section Main.

Variable rules : json_rules.
Variable url_ok : string -> bool.
Variable srv : list HttpRequest -> HttpRequest -> transport.

(** The Go string literal ["\n"]. *)
Definition nl : string := String "010"%char EmptyString.

Definition line (torrent : Torrent) : string :=
  GoSprintf.printed ("%s (%d) %s" ++ nl) [GoSprintf.AString (Torrent_string torrent "Name");
       GoSprintf.AInt64 (Torrent_int64 torrent "Id");
       GoSprintf.AInt64 (Torrent_int64 torrent "Status")].

(** The standard output written (one text per [Printf]), how the run ends,
    and the world after it. *)
Definition main (address username password : string) (w : World)
  : list string * exit_code * World :=
  match New address username password with
  | inr err =>
      ([], ExitFatal (GoSprintf.printed "Failed to create Transmission client: %v"
                        [GoSprintf.AError err]), w)
  | inl t =>
      match ListAll rules url_ok srv (mkWorld t (sent w)) with
      | (Err err, w') =>
          ([], ExitFatal (GoSprintf.printed "ListAll error: %v" [GoSprintf.AError err]), w')
      | (Panic m, w') => ([], ExitPanic m, w')
      | (Ok torrents, w') =>
          let '(out, p) := print_each line torrents in
          (out, match p with None => Exit0 | Some m => ExitPanic m end, w')
      end
  end.

End Main.
End TransmissionCli.

(** [src/unnamed/part_000]: the tool with [-list], [-start], [-startnow],
    [-stop] and [-remove]. *)
Module Part000Cli.

Record flags := mkFlags {
  f_address : string;
  f_username : string;
  f_password : string;
  f_list : bool;
  f_start : Z;
  f_startNow : Z;
  f_stop : Z;
  f_remove : Z
}.

(** The flags' default values. *)
Definition default_flags : flags := mkFlags "" "" "" false (-1) (-1) (-1) (-1).

Section Main.

Variable rules : json_rules.
Variable url_ok : string -> bool.
Variable srv : list HttpRequest -> HttpRequest -> transport.
(** The text [fmt.Printf("%d: (Status %d) (Done: %.2f) %s\n", ...)] prints
    for one torrent; its [float64] formatting is not modelled. *)
Variable line : Torrent -> string.

(** [err := op; if err != nil { log.Fatalf(format, err) }] *)
Definition report (format : string) (op : M unit) (w : World)
  : list string * exit_code * World :=
  match op w with
  | (Ok _, w') => ([], Exit0, w')
  | (Err err, w') => ([], ExitFatal (GoSprintf.printed format [GoSprintf.AError err]), w')
  | (Panic m, w') => ([], ExitPanic m, w')
  end.

Definition main (f : flags) (w : World) : list string * exit_code * World :=
  match New (f_address f) (f_username f) (f_password f) with
  | inr err =>
      ([], ExitFatal (GoSprintf.printed "Failed to create Transmission client: %v"
                        [GoSprintf.AError err]), w)
  | inl t =>
      let w1 := mkWorld t (sent w) in
      if f_list f then
        match ListAll rules url_ok srv w1 with
        | (Err err, w') =>
            ([], ExitFatal (GoSprintf.printed "ListAll error: %v" [GoSprintf.AError err]), w')
        | (Panic m, w') => ([], ExitPanic m, w')
        | (Ok torrents, w') =>
            let '(out, p) := print_each line torrents in
            (out, match p with None => Exit0 | Some m => ExitPanic m end, w')
        end
      else if negb (Z.eqb (f_start f) (-1)) then
        report "ListAll error: %v" (Start rules url_ok srv [f_start f]) w1
      else if negb (Z.eqb (f_startNow f) (-1)) then
        report "StartNow error: %v" (StartNow rules url_ok srv [f_startNow f]) w1
      else if negb (Z.eqb (f_stop f) (-1)) then
        report "ListAll error: %v" (Stop rules url_ok srv [f_stop f]) w1
      else if negb (Z.eqb (f_remove f) (-1)) then
        report "Remove error: %v" (Remove rules url_ok srv [f_remove f]) w1
      else ([], Exit0, w1)
  end.

End Main.
End Part000Cli.


(** ** Concrete environments *)

Module Scenarios.

(** [net/url] (since Go 1.12) refuses a URL holding an ASCII control byte;
    this instance of [url_ok] accepts every other address. *)
Definition no_ctl_byte (a : string) : bool :=
  forallb (fun c => let n := nat_of_ascii c in (32 <=? n)%nat && negb (n =? 127)%nat)
          (list_ascii_of_string a).

Definition client0 : Transmission :=
  match New "localhost:9091" "" "" with inl t => t | inr _ => mkTransmission "" "" "" "" end.

Definition w0 : World := mkWorld client0 [].

Definition ok_response (j : json) : HttpResponse := mkHttpResponse 200 None (BodyJSON j).

(** A daemon answering every request with [r]. *)
Definition srv_const (r : HttpResponse) : list HttpRequest -> HttpRequest -> transport :=
  fun _ _ => TResp r.

(** A daemon answering the first request with a 409 whose session header is
    [hdr], and every later one with [r]. *)
Definition srv_409_first (hdr : option (list string)) (r : HttpResponse)
  : list HttpRequest -> HttpRequest -> transport :=
  fun hist _ =>
    match hist with
    | [] => TResp (mkHttpResponse 409 hdr (BodyInvalid "unexpected EOF"))
    | _ => TResp r
    end.

Definition success_envelope : json := JObj [("result", JStr "success"); ("tag", JInt 1)].

Definition listing_body : json :=
  JObj [("result", JStr "success"); ("tag", JInt 1);
        ("arguments", JObj [("torrents", JArr [
           JObj [("id", JInt 1); ("name", JStr "a"); ("status", JInt 4)];
           JObj [("id", JInt 2); ("name", JStr "b"); ("status", JInt 16)]])])].

Definition listing_arguments : json :=
  JObj [("torrents", JArr [
           JObj [("id", JInt 1); ("name", JStr "a"); ("status", JInt 4)];
           JObj [("id", JInt 2); ("name", JStr "b"); ("status", JInt 16)]])].

(** The same listing with the members in the order the daemon writes them:
    [arguments] first. *)
Definition daemon_listing_body : json :=
  JObj [("arguments", listing_arguments); ("result", JStr "success"); ("tag", JInt 1)].

(** Listings whose second element is [null], or does not decode (its [id]
    is a string). *)
Definition null_listing_body : json :=
  JObj [("arguments", JObj [("torrents", JArr [JObj [("id", JInt 1)]; JNull])]);
        ("result", JStr "success"); ("tag", JInt 1)].

Definition bad_listing_body : json :=
  JObj [("arguments", JObj [("torrents", JArr [JObj [("id", JInt 1)]; JObj [("id", JStr "2")]])]);
        ("result", JStr "success"); ("tag", JInt 1)].

Definition listing_req : json := marshal_getRequest [] ListAll_fields.

(** The text Go 1.10's [encoding/json] gives the error of a nil embedded
    pointer to the unexported [responseBase]. *)
Definition go110_embedded_msg : string :=
  "json: cannot set embedded pointer to unexported struct: transmission_go_api.responseBase".

(** A daemon answering every request with the envelope [{"result": res,
    "tag": 1}]. *)
Definition srv_result (res : string) : list HttpRequest -> HttpRequest -> transport :=
  srv_const (ok_response (JObj [("result", JStr res); ("tag", JInt 1)])).

(** A client whose address holds the control byte DEL. *)
Definition client_ctl : Transmission :=
  match New ("localhost:9091" ++ String "127"%char EmptyString) "" "" with
  | inl t => t
  | inr _ => mkTransmission "" "" "" ""
  end.

Definition w_ctl : World := mkWorld client_ctl [].

(** The fields [peers] ... [webseeds] the source comments out of
    [ListAll]'s list. *)
Definition omitted_fields : list string :=
  ["peers"; "peersConnected"; "peersFrom"; "peersGettingFromUs"; "peersSendingToUs";
   "priorities"; "queuePosition"; "trackers"; "trackerStats"; "wanted"; "webseeds"].

(** The six fields the spec names as left out. *)
Definition spec_omitted_fields : list string :=
  ["peers"; "trackers"; "priorities"; "queuePosition"; "wanted"; "webseeds"].

(** A daemon answering every request with the status [code] and the body
    [j]. *)
Definition srv_status (code : Z) (j : json) : list HttpRequest -> HttpRequest -> transport :=
  srv_const (mkHttpResponse code None (BodyJSON j)).

(** A network on which every request fails with [e]. *)
Definition srv_down (e : string) : list HttpRequest -> HttpRequest -> transport :=
  fun _ _ => TErr e.

(** A daemon answering the first request with a 409 carrying the session id
    [v], after which the network fails with [e]. *)
Definition srv_409_then_down (v e : string) : list HttpRequest -> HttpRequest -> transport :=
  fun hist _ =>
    match hist with
    | [] => TResp (mkHttpResponse 409 (Some [v]) (BodyInvalid "unexpected EOF"))
    | _ => TErr e
    end.

(** A daemon answering every request with a 409 carrying the session id [v]
    and the body [j]. *)
Definition srv_409_always (v : string) (j : json) : list HttpRequest -> HttpRequest -> transport :=
  srv_const (mkHttpResponse 409 (Some [v]) (BodyJSON j)).

(** A daemon that accepts the session id [v] only: a request carrying it
    gets [r], any other one a 409 carrying [v]. *)
Definition srv_session (v : string) (r : HttpResponse) : list HttpRequest -> HttpRequest -> transport :=
  fun _ h =>
    match hr_session h with
    | [v'] => if String.eqb v v' then TResp r
              else TResp (mkHttpResponse 409 (Some [v]) (BodyInvalid "unexpected EOF"))
    | _ => TResp (mkHttpResponse 409 (Some [v]) (BodyInvalid "unexpected EOF"))
    end.

End Scenarios.
Import Scenarios.

(** * Properties *)

(** How many requests [doRPC] hands to [cli.Do], from the answer to the
    first one. *)
Definition expected_posts (a : transport) : nat :=
  match a with
  | TResp r =>
      if Z.eqb (StatusCode r) 409 then
        match session_header r with Some [_] => 2 | _ => 1 end
      else 1
  | TErr _ => 1
  end.

(** The answer whose body [doRPC] reads: the answer to the first request
    when its status is not 409, or, after a first answer 409 carrying
    exactly one session id [v], the answer to the retry sent with [v]. *)
Inductive decoded_answer (url_ok : string -> bool)
    (srv : list HttpRequest -> HttpRequest -> transport) (req : json) (w : World)
  : HttpResponse -> Prop :=
| first_answer r :
    url_ok (address (client w)) = true ->
    srv (sent w) (build_request (client w) req) = TResp r ->
    StatusCode r <> 409%Z ->
    decoded_answer url_ok srv req w r
| retry_answer r1 v r :
    url_ok (address (client w)) = true ->
    srv (sent w) (build_request (client w) req) = TResp r1 ->
    StatusCode r1 = 409%Z ->
    session_header r1 = Some [v] ->
    srv (sent w ++ [build_request (client w) req])%list
        (build_request (with_session (client w) v) req) = TResp r ->
    decoded_answer url_ok srv req w r.

Lemma postRequest_sent url_ok srv req w :
  sent (snd (postRequest url_ok srv req w)) =
  if url_ok (address (client w)) then (sent w ++ [build_request (client w) req])%list else sent w.
Proof.
  unfold postRequest; destruct (url_ok (address (client w))); [|reflexivity].
  destruct (srv (sent w) (build_request (client w) req)); reflexivity.
Qed.

Lemma postRequest_client url_ok srv req w :
  client (snd (postRequest url_ok srv req w)) = client w.
Proof.
  unfold postRequest; destruct (url_ok (address (client w))); [|reflexivity].
  destruct (srv (sent w) (build_request (client w) req)); reflexivity.
Qed.

(** The requests one [doRPC] call hands to [cli.Do], and the client it
    leaves. *)
Lemma doRPC_effect {R : Type} (decode : json -> R + string) url_ok srv req w :
  let h1 := build_request (client w) req in
  snd (doRPC url_ok srv decode req w) =
  if url_ok (address (client w)) then
    match srv (sent w) h1 with
    | TResp r =>
        if Z.eqb (StatusCode r) 409 then
          match session_header r with
          | Some [v] =>
              mkWorld (with_session (client w) v)
                      (sent w ++ [h1; build_request (with_session (client w) v) req])%list
          | _ => mkWorld (client w) (sent w ++ [h1])%list
          end
        else mkWorld (client w) (sent w ++ [h1])%list
    | TErr _ => mkWorld (client w) (sent w ++ [h1])%list
    end
  else w.
Proof.
  cbn zeta. unfold doRPC, bind, postRequest.
  destruct (url_ok (address (client w))) eqn:Hu; [|reflexivity].
  destruct (srv (sent w) (build_request (client w) req)) as [r|e] eqn:Hs; [|reflexivity].
  destruct (Z.eqb (StatusCode r) 409) eqn:H409.
  - destruct (session_header r) as [[|v [|v' l]]|] eqn:Hh; try reflexivity.
    unfold setSessionId; cbn. rewrite Hu.
    destruct (srv (sent w ++ [build_request (client w) req])%list
                  (build_request (with_session (client w) v) req)) as [r2|e2];
      cbn; [|rewrite <- app_assoc; reflexivity].
    destruct (Body r2) as [j|e|e]; cbn; try (rewrite <- app_assoc; reflexivity).
    destruct (decode j); cbn; rewrite <- app_assoc; reflexivity.
  - cbn. destruct (Body r) as [j|e|e]; cbn; try reflexivity.
    destruct (decode j); reflexivity.
Qed.

(** ** C1: at most one retry *)

(** C1 (as amended). A [doRPC] call hands at most two requests to [cli.Do].
    When the request can be built, it hands exactly one unless the first
    answer is a 409 carrying exactly one session id, and then exactly two.
    A 409 whose session header is missing or does not hold exactly one
    value ends the call with an error (the text [doRPC] builds for each
    case) after that one request. *)
Theorem doRPC_post_count {R : Type} (decode : json -> R + string) url_ok srv req w :
  let w' := snd (doRPC url_ok srv decode req w) in
  (length (sent w') <= length (sent w) + 2)%nat /\
  (url_ok (address (client w)) = true ->
   length (sent w') =
   (length (sent w) + expected_posts (srv (sent w) (build_request (client w) req)))%nat) /\
  (url_ok (address (client w)) = true -> forall r,
   srv (sent w) (build_request (client w) req) = TResp r ->
   StatusCode r = 409%Z -> (forall v, session_header r <> Some [v]) ->
   fst (doRPC url_ok srv decode req w) =
     Err (match session_header r with
          | None => "409 response without " ++ csrfSessionHeader
          | Some _ => "409 with " ++ csrfSessionHeader ++ ", but value is empty"
          end)%string).
Proof.
  cbn zeta. split; [|split].
  1-2: rewrite doRPC_effect; cbn zeta;
    destruct (url_ok (address (client w))) eqn:Hu; [|try lia; discriminate];
    unfold expected_posts;
    destruct (srv (sent w) (build_request (client w) req)) as [r|e];
    [destruct (Z.eqb (StatusCode r) 409);
       [destruct (session_header r) as [[|v [|v' l]]|]|]|];
    cbn; rewrite length_app; cbn; intros; lia.
  intros Hu r Hs H409 Hh. unfold doRPC, bind, postRequest. rewrite Hu, Hs. cbn.
  rewrite H409. cbn.
  destruct (session_header r) as [[|v [|v' l]]|]; try reflexivity.
  exfalso. exact (Hh v eq_refl).
Qed.

Lemma doRPC_post_count_witness :
  length (sent (snd (doRPC (fun _ => true)
                           (srv_409_first (Some ["abc123"]) (ok_response success_envelope))
                           (decode_getResponse PreGo110) listing_req w0))) = 2%nat /\
  fst (doRPC (fun _ => true) (srv_409_first None (ok_response success_envelope))
             (decode_getResponse PreGo110) listing_req w0) =
    Err ("409 response without " ++ csrfSessionHeader).
Proof.
  split.
  - rewrite (proj1 (proj2 (doRPC_post_count (decode_getResponse PreGo110) (fun _ => true)
                    (srv_409_first (Some ["abc123"]) (ok_response success_envelope))
                    listing_req w0)) eq_refl).
    reflexivity.
  - exact (proj2 (proj2 (doRPC_post_count (decode_getResponse PreGo110) (fun _ => true)
             (srv_409_first None (ok_response success_envelope)) listing_req w0))
             eq_refl (mkHttpResponse 409 None (BodyInvalid "unexpected EOF")) eq_refl eq_refl
             (fun v H => ltac:(discriminate H))).
Defined.

(** The claim as first stated fails: a 409 without the session header ends
    the call after a single request. *)
Lemma doRPC_409_not_two_posts :
  (exists r, srv_409_first None (ok_response success_envelope) []
               (build_request client0 listing_req) = TResp r /\ StatusCode r = 409%Z) /\
  length (sent (snd (doRPC (fun _ => true)
                           (srv_409_first None (ok_response success_envelope))
                           (decode_getResponse PreGo110) listing_req w0))) = 1%nat.
Proof. split; [eexists; split; reflexivity | vm_compute; reflexivity]. Qed.

(** ** C2: the retry carries the new session id *)

(** C2. After a first answer 409 whose session header holds exactly one
    value [v], the client's session id is [v] when the second request is
    built, and that request carries [v] in its session header; the call
    sends exactly these two requests and leaves the client with [v]. *)
Theorem doRPC_retry_uses_new_session {R : Type} (decode : json -> R + string)
    url_ok srv req w r1 v :
  url_ok (address (client w)) = true ->
  srv (sent w) (build_request (client w) req) = TResp r1 ->
  StatusCode r1 = 409%Z ->
  session_header r1 = Some [v] ->
  let w' := snd (doRPC url_ok srv decode req w) in
  exists t2 h2,
    sessionId t2 = v /\ h2 = build_request t2 req /\ hr_session h2 = [v] /\
    sent w' = (sent w ++ [build_request (client w) req; h2])%list /\
    client w' = t2.
Proof.
  intros Hu Hs H409 Hh. cbn zeta. rewrite doRPC_effect. cbn zeta.
  rewrite Hu, Hs, H409, Hh. cbn.
  exists (with_session (client w) v), (build_request (with_session (client w) v) req).
  repeat split; reflexivity.
Qed.

Lemma doRPC_retry_uses_new_session_witness :
  exists t2 h2,
    sessionId t2 = "abc123" /\ h2 = build_request t2 listing_req /\ hr_session h2 = ["abc123"] /\
    sent (snd (doRPC (fun _ => true)
                     (srv_409_first (Some ["abc123"]) (ok_response success_envelope))
                     (decode_getResponse PreGo110) listing_req w0)) =
      ([build_request client0 listing_req; h2])%list /\
    client (snd (doRPC (fun _ => true)
                     (srv_409_first (Some ["abc123"]) (ok_response success_envelope))
                     (decode_getResponse PreGo110) listing_req w0)) = t2.
Proof.
  apply (doRPC_retry_uses_new_session (decode_getResponse PreGo110) (fun _ => true)
           (srv_409_first (Some ["abc123"]) (ok_response success_envelope)) listing_req w0
           (mkHttpResponse 409 (Some ["abc123"]) (BodyInvalid "unexpected EOF")) "abc123");
    reflexivity.
Defined.

(** ** C3: a 409 without a usable session id ends the call *)

(** C3. A first answer 409 whose session header is absent or does not hold
    exactly one value makes [doRPC] return an error (naming the header), and
    no second request is sent. *)
Theorem doRPC_409_bad_header_no_retry {R : Type} (decode : json -> R + string)
    url_ok srv req w r1 :
  url_ok (address (client w)) = true ->
  srv (sent w) (build_request (client w) req) = TResp r1 ->
  StatusCode r1 = 409%Z ->
  (forall v, session_header r1 <> Some [v]) ->
  fst (doRPC url_ok srv decode req w) =
    Err (match session_header r1 with
         | None => "409 response without X-Transmission-Session-Id"
         | Some _ => "409 with X-Transmission-Session-Id, but value is empty"
         end) /\
  snd (doRPC url_ok srv decode req w) =
    mkWorld (client w) (sent w ++ [build_request (client w) req])%list.
Proof.
  intros Hu Hs H409 Hh. split.
  - unfold doRPC, bind, postRequest. rewrite Hu, Hs. cbn. rewrite H409. cbn.
    destruct (session_header r1) as [[|v [|v' l]]|]; try reflexivity.
    exfalso; exact (Hh v eq_refl).
  - rewrite doRPC_effect. cbn zeta. rewrite Hu, Hs, H409. cbn.
    destruct (session_header r1) as [[|v [|v' l]]|]; try reflexivity.
    exfalso; exact (Hh v eq_refl).
Qed.

Lemma doRPC_409_bad_header_no_retry_witness :
  fst (doRPC (fun _ => true) (srv_409_first None (ok_response success_envelope))
             (decode_getResponse PreGo110) listing_req w0) =
    Err "409 response without X-Transmission-Session-Id" /\
  snd (doRPC (fun _ => true) (srv_409_first None (ok_response success_envelope))
             (decode_getResponse PreGo110) listing_req w0) =
    mkWorld client0 [build_request client0 listing_req].
Proof.
  apply (doRPC_409_bad_header_no_retry (decode_getResponse PreGo110) (fun _ => true)
           (srv_409_first None (ok_response success_envelope)) listing_req w0
           (mkHttpResponse 409 None (BodyInvalid "unexpected EOF")));
    try reflexivity.
  intros v; discriminate.
Defined.

(** ** C4: an empty id list is a no-op *)

(** C4. Each lifecycle operation given no ids returns success at once: no
    request is sent and the state (the client and its session id included)
    is left as it was. *)
Theorem lifecycle_empty_ids_noop rules url_ok srv w :
  Start rules url_ok srv [] w = (Ok tt, w) /\
  StartNow rules url_ok srv [] w = (Ok tt, w) /\
  Stop rules url_ok srv [] w = (Ok tt, w) /\
  Verify rules url_ok srv [] w = (Ok tt, w) /\
  Reannounce rules url_ok srv [] w = (Ok tt, w) /\
  Remove rules url_ok srv [] w = (Ok tt, w).
Proof. repeat split. Qed.

(** ** C5: the daemon's result string as error text *)

(** C5 (a defect of the code). The result string is used as the format of
    [fmt.Errorf]: a result holding [%] is not copied verbatim. For ["100%"] both [ListAll] and the
    lifecycle operations fail with the text ["100%!(NOVERB)"]. *)
Theorem result_error_text_reformatted :
  fst (ListAll PreGo110 (fun _ => true) (srv_result "100%") w0) = Err "100%!(NOVERB)" /\
  fst (Start PreGo110 (fun _ => true) (srv_result "100%") [1%Z] w0) = Err "100%!(NOVERB)".
Proof. split; vm_compute; reflexivity. Qed.

(** [fmt.Errorf] copies a format without [%]. *)
Lemma span_text_no_percent (l : list ascii) :
  ~ In "%"%char l -> GoFmt.span_text l = (l, []).
Proof.
  induction l as [|c l IH]; intros H; [reflexivity|].
  cbn. unfold GoFmt.ch. destruct (Ascii.eqb c "%") eqn:Hc.
  - apply Ascii.eqb_eq in Hc; subst. exfalso; apply H; left; reflexivity.
  - rewrite IH; [reflexivity|]. intros Hin; apply H; right; exact Hin.
Qed.

Lemma Errorf_no_percent (s : string) :
  ~ In "%"%char (list_ascii_of_string s) -> GoFmt.Errorf s = s.
Proof.
  intros H. unfold GoFmt.Errorf. cbn.
  rewrite (span_text_no_percent _ H), app_nil_r.
  apply string_of_list_ascii_of_string.
Qed.

Lemma Errorf_no_percent_witness :
  GoFmt.Errorf "duplicate torrent" = "duplicate torrent".
Proof.
  apply Errorf_no_percent. intros H. cbn in H.
  repeat (destruct H as [H|H]; [discriminate|]). exact H.
Defined.

(** The spec's example: ["duplicate torrent"] is reported as it is. *)
Lemma duplicate_torrent_error :
  fst (ListAll PreGo110 (fun _ => true) (srv_result "duplicate torrent") w0)
    = Err "duplicate torrent" /\
  fst (Remove PreGo110 (fun _ => true) (srv_result "duplicate torrent") [1%Z] w0)
    = Err "duplicate torrent".
Proof. split; vm_compute; reflexivity. Qed.

(** ** C6: address normalisation *)

(** C6 (a defect of the code). [New]'s scheme test is the plain prefix
    check [strings.HasPrefix(address, "http")]: no scheme is prepended to
    any address that begins with the four bytes [http], so a host name such
    as ["httpbox:9091"], which starts with neither [http://] nor
    [https://], keeps having none: [New] makes it
    ["httpbox:9091/transmission/rpc"]. *)
Theorem New_keeps_scheme_less_http_host (rest u p : string) :
  New ("http" ++ rest) u p =
    inl (mkTransmission
           (if HasSuffix ("http" ++ rest) "/transmission/rpc" then "http" ++ rest
            else ("http" ++ rest) ++ "/transmission/rpc") u p "") /\
  HasPrefix "httpbox:9091" "http://" = false /\
  HasPrefix "httpbox:9091" "https://" = false /\
  New "httpbox:9091" u p = inl (mkTransmission "httpbox:9091/transmission/rpc" u p "") /\
  HasPrefix "httpbox:9091/transmission/rpc" "http://" = false /\
  HasPrefix "httpbox:9091/transmission/rpc" "https://" = false.
Proof.
  split; [|repeat split].
  unfold New, normalize_address.
  replace (HasPrefix ("http" ++ rest) "http") with true by (destruct rest; reflexivity).
  cbn [negb]. destruct (HasSuffix ("http" ++ rest) "/transmission/rpc"); reflexivity.
Qed.

(** ** C8: the fields [ListAll] requests *)

Lemma omitted_fields_computed :
  filter (fun tag => negb (existsb (String.eqb tag) ListAll_fields)) Torrent_tags
  = omitted_fields.
Proof. vm_compute. reflexivity. Qed.

Lemma existsb_eqb_In (x : string) (l : list string) :
  existsb (String.eqb x) l = true <-> In x l.
Proof.
  rewrite existsb_exists. split.
  - intros [y [Hy Heq]]. apply String.eqb_eq in Heq; subst; exact Hy.
  - intros H; exists x; split; [exact H | apply String.eqb_refl].
Qed.

(** C8 (as amended). The [Torrent] fields missing from [ListAll]'s field
    list are exactly the eleven commented out in the source: [peers],
    [peersConnected], [peersFrom], [peersGettingFromUs], [peersSendingToUs],
    [priorities], [queuePosition], [trackers], [trackerStats], [wanted] and
    [webseeds]; every requested field is a [Torrent] field. *)
Theorem ListAll_fields_omitted_exactly :
  (forall tag, (In tag Torrent_tags /\ ~ In tag ListAll_fields) <-> In tag omitted_fields) /\
  (forall f, In f ListAll_fields -> In f Torrent_tags).
Proof.
  split.
  - intros tag. rewrite <- omitted_fields_computed, filter_In.
    rewrite Bool.negb_true_iff, <- Bool.not_true_iff_false, existsb_eqb_In.
    reflexivity.
  - intros f Hf. apply existsb_eqb_In. apply existsb_eqb_In in Hf.
    revert Hf. generalize f. clear f. intros f.
    unfold ListAll_fields.
    cbn [existsb]. rewrite !Bool.orb_true_iff.
    intros Hf. repeat (destruct Hf as [Hf|Hf];
      [apply String.eqb_eq in Hf; subst; vm_compute; reflexivity|]).
    discriminate.
Qed.

(** Six is not the count: [peersConnected] is a [Torrent] field left out of
    the request that the six-field list does not name. *)
Lemma ListAll_fields_omitted_not_six :
  ~ (forall tag, (In tag Torrent_tags /\ ~ In tag ListAll_fields) <-> In tag spec_omitted_fields).
Proof.
  intros H. destruct (H "peersConnected") as [H1 _].
  assert (Hin : In "peersConnected" spec_omitted_fields).
  { apply H1. split.
    - apply existsb_eqb_In. vm_compute. reflexivity.
    - intros Hin. apply existsb_eqb_In in Hin. vm_compute in Hin. discriminate. }
  apply existsb_eqb_In in Hin. vm_compute in Hin. discriminate.
Qed.

(** ** C9: a request that cannot be built *)

(** C9. When [http.NewRequest] fails for the client's address,
    [postRequest] writes the session header through the nil request and
    panics instead of returning the error; nothing is sent and the client is
    unchanged. [ListAll] therefore panics too. *)
Theorem postRequest_nil_request_panics url_ok srv req w :
  url_ok (address (client w)) = false ->
  postRequest url_ok srv req w = (Panic nil_deref, w) /\
  (forall rules, ListAll rules url_ok srv w = (Panic nil_deref, w)).
Proof.
  intros Hu. split.
  - unfold postRequest. rewrite Hu. reflexivity.
  - intros rules. unfold ListAll, doRPC, bind, postRequest. rewrite Hu. reflexivity.
Qed.

Lemma postRequest_nil_request_panics_witness :
  no_ctl_byte (address client_ctl) = false /\
  postRequest no_ctl_byte (srv_result "success") listing_req w_ctl = (Panic nil_deref, w_ctl) /\
  (forall rules, ListAll rules no_ctl_byte (srv_result "success") w_ctl = (Panic nil_deref, w_ctl)).
Proof.
  split; [vm_compute; reflexivity|].
  apply (postRequest_nil_request_panics no_ctl_byte (srv_result "success") listing_req w_ctl).
  vm_compute. reflexivity.
Defined.

(** ** The answer [doRPC] decodes *)

Lemma doRPC_no_409 {R : Type} (decode : json -> R + string) url_ok srv req w r :
  url_ok (address (client w)) = true ->
  srv (sent w) (build_request (client w) req) = TResp r ->
  StatusCode r <> 409%Z ->
  doRPC url_ok srv decode req w =
    (match Body r with
     | BodyJSON j => match decode j with inl v => Ok v | inr e => Err e end
     | BodyInvalid e | BodyUnreadable e => Err e
     end,
     mkWorld (client w) (sent w ++ [build_request (client w) req])%list).
Proof.
  intros Hu Hs H409. unfold doRPC, bind, postRequest. rewrite Hu, Hs. cbn.
  apply Z.eqb_neq in H409. rewrite H409. cbn.
  destruct (Body r) as [j|e|e]; [|reflexivity|reflexivity].
  destruct (decode j); reflexivity.
Qed.

Lemma doRPC_decoded {R : Type} (decode : json -> R + string) url_ok srv req w r :
  decoded_answer url_ok srv req w r ->
  fst (doRPC url_ok srv decode req w) =
    match Body r with
    | BodyJSON j => match decode j with inl v => Ok v | inr e => Err e end
    | BodyInvalid e | BodyUnreadable e => Err e
    end.
Proof.
  intros [r' Hu Hs H409 | r1 v r' Hu Hs H409 Hh Hs2].
  - rewrite (doRPC_no_409 decode url_ok srv req w r' Hu Hs H409). reflexivity.
  - unfold doRPC, bind, postRequest. rewrite Hu, Hs. cbn.
    rewrite H409. cbn. rewrite Hh. unfold setSessionId. cbn. rewrite Hu, Hs2. cbn.
    destruct (Body r') as [j|e|e]; [|reflexivity|reflexivity].
    destruct (decode j); reflexivity.
Qed.

(** What [ListAll] and [torrentRequests] make of the envelope they decode. *)
Lemma ListAll_answer rules url_ok srv w r j :
  decoded_answer url_ok srv listing_req w r -> Body r = BodyJSON j ->
  fst (ListAll rules url_ok srv w) =
    match decode_getResponse rules j with
    | inr e => Err e
    | inl resp =>
        match getResponse_base resp with
        | None => Panic nil_deref
        | Some rb =>
            if negb (String.eqb (Result rb) "success") then Err (GoFmt.Errorf (Result rb))
            else match getResponse_Arguments resp with
                 | None => Panic nil_deref
                 | Some p => Ok (Torrents p)
                 end
        end
    end.
Proof.
  intros Ha Hb. pose proof (doRPC_decoded (decode_getResponse rules) _ _ _ _ _ Ha) as H.
  rewrite Hb in H. unfold ListAll, bind. fold listing_req.
  destruct (doRPC url_ok srv (decode_getResponse rules) listing_req w) as [o w'].
  cbn in H. subst o.
  destruct (decode_getResponse rules j) as [resp|e]; [|reflexivity].
  cbn. destruct (getResponse_base resp) as [rb|]; [|reflexivity].
  destruct (negb _); [reflexivity|]. destruct (getResponse_Arguments resp); reflexivity.
Qed.

Lemma torrentRequests_answer rules url_ok srv method ids w r j :
  ids <> [] ->
  decoded_answer url_ok srv (marshal_torrentRequestsRequest method ids) w r ->
  Body r = BodyJSON j ->
  fst (torrentRequests rules url_ok srv method ids w) =
    match decode_torrentRequestsResponse rules j with
    | inr e => Err e
    | inl resp =>
        match torrentRequestsResponse_base resp with
        | None => Panic nil_deref
        | Some rb =>
            if negb (String.eqb (Result rb) "success") then Err (GoFmt.Errorf (Result rb))
            else Ok tt
        end
    end.
Proof.
  intros Hne Ha Hb.
  pose proof (doRPC_decoded (decode_torrentRequestsResponse rules) _ _ _ _ _ Ha) as H.
  rewrite Hb in H. destruct ids as [|i ids]; [congruence|].
  unfold torrentRequests, bind.
  destruct (doRPC url_ok srv (decode_torrentRequestsResponse rules)
              (marshal_torrentRequestsRequest method (i :: ids)) w) as [o w'].
  cbn in H. subst o.
  destruct (decode_torrentRequestsResponse rules j) as [resp|e]; [|reflexivity].
  cbn. destruct (torrentRequestsResponse_base resp) as [rb|]; [|reflexivity].
  destruct (negb _); reflexivity.
Qed.

(** ** C10: a success without arguments *)

(** C10. When the answer [doRPC] decodes (the first one, or the one to the
    retry after a 409) decodes to an envelope whose result is ["success"]
    but which has no [arguments] object, [ListAll] panics on the nil
    [Arguments] pointer instead of returning. *)
Theorem ListAll_success_without_arguments_panics rules url_ok srv w r j resp rb :
  decoded_answer url_ok srv listing_req w r ->
  Body r = BodyJSON j ->
  decode_getResponse rules j = inl resp ->
  getResponse_base resp = Some rb ->
  Result rb = "success" ->
  getResponse_Arguments resp = None ->
  fst (ListAll rules url_ok srv w) = Panic nil_deref.
Proof.
  intros Ha Hb Hd Hbase Hres Harg.
  rewrite (ListAll_answer rules _ _ _ _ _ Ha Hb), Hd, Hbase, Hres, Harg. reflexivity.
Qed.

(** A fresh client: the first answer is a 409, the retry gets
    [{"result": "success", "tag": 1}]. *)
Lemma ListAll_success_without_arguments_panics_witness :
  fst (ListAll PreGo110 (fun _ => true)
         (srv_409_first (Some ["abc123"]) (ok_response success_envelope)) w0)
    = Panic nil_deref.
Proof.
  apply (ListAll_success_without_arguments_panics PreGo110 (fun _ => true)
           (srv_409_first (Some ["abc123"]) (ok_response success_envelope)) w0
           (ok_response success_envelope) success_envelope
           (mkGetResponse (Some (mkResponseBase "success" 1)) None)
           (mkResponseBase "success" 1));
    try reflexivity.
  apply (retry_answer _ _ _ _ (mkHttpResponse 409 (Some ["abc123"]) (BodyInvalid "unexpected EOF"))
           "abc123"); reflexivity.
Defined.

(** ** C7: the listing and the Go release *)

Lemma decode_elems_Forall2 {A} (d : json -> A -> A + string) (z : A) js xs :
  decode_elems d z js [] = inl xs -> Forall2 (fun j x => d j z = inl x) js xs.
Proof.
  revert xs. induction js as [|j js IH]; intros xs H.
  - cbn in H. injection H as <-. constructor.
  - cbn in H. destruct (d j z) as [x|e] eqn:Hx; [|discriminate].
    destruct (decode_elems d z js []) as [xs'|e] eqn:Hxs; [|discriminate].
    injection H as <-. constructor; [exact Hx | apply IH; reflexivity].
Qed.

Lemma torrent_field_set_other n n' v t :
  n <> n' -> torrent_field (set_field n' v t) n = torrent_field t n.
Proof.
  intros Hne. unfold torrent_field, set_field.
  induction t as [|[m x] t IH]; [reflexivity|]. cbn.
  destruct (String.eqb n' m) eqn:H1; cbn.
  - apply String.eqb_eq in H1; subst.
    destruct (String.eqb n m) eqn:H2; [apply String.eqb_eq in H2; congruence|].
    exact IH.
  - destruct (String.eqb n m); [reflexivity | exact IH].
Qed.

Lemma Torrent_schema_names_unique_b :
  forallb (fun '(n, tag, _) =>
             forallb (fun '(n', tag', _) => implb (String.eqb n n') (String.eqb tag tag'))
                     Torrent_schema)
          Torrent_schema = true.
Proof. vm_compute. reflexivity. Qed.

Lemma Torrent_schema_names_unique n tag ty tag' ty' :
  In (n, tag, ty) Torrent_schema -> In (n, tag', ty') Torrent_schema -> tag = tag'.
Proof.
  intros H1 H2.
  pose proof (proj1 (forallb_forall _ _) Torrent_schema_names_unique_b _ H1) as H.
  cbn beta iota in H.
  pose proof (proj1 (forallb_forall _ _) H _ H2) as H'. cbn beta iota in H'.
  rewrite String.eqb_refl in H'. cbn in H'. apply String.eqb_eq. exact H'.
Qed.

Lemma Torrent_step_other_field k j t t' n tag ty :
  In (n, tag, ty) Torrent_schema -> key_matches k tag = false ->
  Torrent_step k j t = inl t' -> torrent_field t' n = torrent_field t n.
Proof.
  intros Hin Hk Hs. unfold Torrent_step in Hs.
  destruct (Torrent_lookup k) as [[[n' tag'] ty']|] eqn:Hl.
  2: { injection Hs as <-. reflexivity. }
  unfold Torrent_lookup in Hl. apply find_some in Hl as [Hin' Hk'].
  destruct (torrent_field t n') as [cur|].
  2: { injection Hs as <-. reflexivity. }
  destruct (decode_field ty' j cur) as [v|e]; [|discriminate].
  injection Hs as <-. apply torrent_field_set_other.
  intros ->. pose proof (Torrent_schema_names_unique _ _ _ _ _ Hin Hin'); subst.
  congruence.
Qed.

Lemma fold_Torrent_other_field kvs t t' n tag ty :
  In (n, tag, ty) Torrent_schema ->
  Forall (fun '(k, _) => key_matches k tag = false) kvs ->
  fold_kvs Torrent_step kvs t = inl t' -> torrent_field t' n = torrent_field t n.
Proof.
  intros Hin. revert t. induction kvs as [|[k j] kvs IH]; intros t Hall Hf.
  - cbn in Hf. injection Hf as <-. reflexivity.
  - inversion Hall as [|? ? Hk Hrest]; subst. cbn in Hf.
    destruct (Torrent_step k j t) as [t1|e] eqn:Hs; [|discriminate].
    rewrite (IH t1 Hrest Hf). exact (Torrent_step_other_field _ _ _ _ _ _ _ Hin Hk Hs).
Qed.

Lemma zero_Torrent_field n tag ty :
  In (n, tag, ty) Torrent_schema -> torrent_field zero_Torrent n = Some (zero_value ty).
Proof.
  intros H. cbn in H.
  repeat (destruct H as [H|H]; [injection H as <- <- <-; vm_compute; reflexivity|]).
  contradiction.
Qed.

Lemma fold_kvs_app {S} (step : string -> json -> S -> S + string) l1 l2 s :
  fold_kvs step (l1 ++ l2) s = (s' <- fold_kvs step l1 s ;; fold_kvs step l2 s').
Proof.
  revert s. induction l1 as [|[k j] l1 IH]; intros s; [reflexivity|].
  cbn. destruct (step k j s) as [s1|e]; [apply IH | reflexivity].
Qed.

Lemma embedded_step_other rules k j b :
  key_matches k "result" = false -> key_matches k "tag" = false ->
  embedded_step rules k j b = None.
Proof.
  intros Hr Ht. unfold embedded_step, responseBase_step. rewrite Hr, Ht. reflexivity.
Qed.

(** A key that matches one field's name matches no field whose folded
    name differs. *)
Lemma key_matches_other k n1 n2 :
  key_matches k n1 = true ->
  string_of_list_ascii (fold_key (list_ascii_of_string n1)) <>
  string_of_list_ascii (fold_key (list_ascii_of_string n2)) ->
  key_matches k n2 = false.
Proof.
  unfold key_matches. intros H1 Hne.
  destruct (String.eqb k n1) eqn:E1.
  - apply String.eqb_eq in E1; subst k.
    destruct (String.eqb n1 n2) eqn:E2.
    + apply String.eqb_eq in E2; subst n2. contradiction Hne; reflexivity.
    + apply String.eqb_neq. exact Hne.
  - apply String.eqb_eq in H1.
    destruct (String.eqb k n2) eqn:E2.
    + apply String.eqb_eq in E2; subst k. exfalso. apply Hne. symmetry. exact H1.
    + apply String.eqb_neq. rewrite H1. exact Hne.
Qed.

Lemma arguments_key_not_base k :
  key_matches k "arguments" = true ->
  key_matches k "result" = false /\ key_matches k "tag" = false.
Proof.
  intros H. split; apply (key_matches_other _ _ _ H);
    let Hc := fresh in intro Hc; vm_compute in Hc; discriminate Hc.
Qed.

(** Members other than [arguments] leave [Arguments] as it is; members
    other than [result] and [tag] leave the embedded pointer as it is. *)
Lemma getResponse_step_keeps_arguments rules k j r r' :
  key_matches k "arguments" = false ->
  getResponse_step rules k j r = inl r' ->
  getResponse_Arguments r' = getResponse_Arguments r.
Proof.
  intros Hk Hs. unfold getResponse_step in Hs.
  destruct (embedded_step rules k j (getResponse_base r)) as [[b|e]|]; cbn in Hs.
  - injection Hs as <-. reflexivity.
  - discriminate.
  - rewrite Hk in Hs. injection Hs as <-. reflexivity.
Qed.

Lemma fold_getResponse_keeps_arguments rules kvs r r' :
  Forall (fun '(k, _) => key_matches k "arguments" = false) kvs ->
  fold_kvs (getResponse_step rules) kvs r = inl r' ->
  getResponse_Arguments r' = getResponse_Arguments r.
Proof.
  revert r. induction kvs as [|[k j] kvs IH]; intros r Hall Hf.
  - cbn in Hf. injection Hf as <-. reflexivity.
  - inversion Hall as [|? ? Hk Hrest]; subst. cbn [fold_kvs] in Hf.
    destruct (getResponse_step rules k j r) as [r1|e] eqn:Hs; [|discriminate].
    rewrite (IH r1 Hrest Hf). exact (getResponse_step_keeps_arguments _ _ _ _ _ Hk Hs).
Qed.

Lemma fold_getResponse_keeps_base rules kvs r r' :
  Forall (fun '(k, _) => key_matches k "result" = false /\ key_matches k "tag" = false) kvs ->
  fold_kvs (getResponse_step rules) kvs r = inl r' ->
  getResponse_base r' = getResponse_base r.
Proof.
  revert r. induction kvs as [|[k j] kvs IH]; intros r Hall Hf.
  - cbn in Hf. injection Hf as <-. reflexivity.
  - inversion Hall as [|? ? Hx Hrest]; subst. destruct Hx as [Hr Ht]. cbn [fold_kvs] in Hf.
    destruct (getResponse_step rules k j r) as [r1|e] eqn:Hs; [|discriminate].
    rewrite (IH r1 Hrest Hf). unfold getResponse_step in Hs.
    rewrite (embedded_step_other _ _ _ _ Hr Ht) in Hs.
    destruct (key_matches k "arguments").
    + destruct (decode_ptr _ _ _ j _) as [a|e]; [|discriminate].
      injection Hs as <-. reflexivity.
    + injection Hs as <-. reflexivity.
Qed.

Lemma fold_payload_other kvs p :
  Forall (fun '(k, _) => key_matches k "torrents" = false) kvs ->
  fold_kvs getResponsePayload_step kvs p = inl p.
Proof.
  induction kvs as [|[k j] kvs IH]; intros H; [reflexivity|].
  inversion H as [|? ? Hk Hrest]; subst. cbn [fold_kvs].
  unfold getResponsePayload_step at 1. rewrite Hk. exact (IH Hrest).
Qed.

(** An [arguments] object with one [torrents] array. *)
Lemma decode_payload_listing apre kt js apost :
  key_matches kt "torrents" = true ->
  Forall (fun '(k, _) => key_matches k "torrents" = false) (apre ++ apost) ->
  fold_kvs getResponsePayload_step (apre ++ (kt, JArr js) :: apost) (mkGetResponsePayload []) =
    (l <- decode_elems decode_torrent_ptr None js [] ;; inl (mkGetResponsePayload l)).
Proof.
  intros Hkt Hk. apply Forall_app in Hk as [Hpre Hpost].
  rewrite fold_kvs_app, (fold_payload_other _ _ Hpre). cbn [fold_kvs].
  unfold getResponsePayload_step at 1. rewrite Hkt. cbn [decode_slice Torrents].
  destruct (decode_elems decode_torrent_ptr None js []) as [l|e]; [|reflexivity].
  exact (fold_payload_other _ _ Hpost).
Qed.

Lemma getResponse_step_arguments_member rules ka ja r :
  key_matches ka "arguments" = true ->
  getResponse_step rules ka ja r =
    (a <- decode_ptr "transmission_go_api.getResponsePayload" (fold_kvs getResponsePayload_step)
            (mkGetResponsePayload []) ja (getResponse_Arguments r) ;;
     inl (mkGetResponse (getResponse_base r) a)).
Proof.
  intros Hka. destruct (arguments_key_not_base _ Hka) as [Hr Ht].
  unfold getResponse_step. rewrite (embedded_step_other _ _ _ _ Hr Ht), Hka. reflexivity.
Qed.

(** An envelope with one [arguments] member holding one [torrents] array,
    its members in any order: when it decodes, [Arguments] holds the
    decoded elements of the array; when an element does not decode,
    neither does the envelope. *)
Lemma decode_getResponse_listing rules pre ka apre kt js apost post :
  key_matches ka "arguments" = true -> key_matches kt "torrents" = true ->
  Forall (fun '(k, _) => key_matches k "arguments" = false) (pre ++ post) ->
  Forall (fun '(k, _) => key_matches k "torrents" = false) (apre ++ apost) ->
  (forall resp,
     decode_getResponse rules (JObj (pre ++ (ka, JObj (apre ++ (kt, JArr js) :: apost)) :: post))
       = inl resp ->
     exists ts, getResponse_Arguments resp = Some (mkGetResponsePayload ts) /\
                decode_elems decode_torrent_ptr None js [] = inl ts) /\
  (forall e0, decode_elems decode_torrent_ptr None js [] = inr e0 ->
     exists e,
       decode_getResponse rules (JObj (pre ++ (ka, JObj (apre ++ (kt, JArr js) :: apost)) :: post))
         = inr e).
Proof.
  intros Hka Hkt Hk Hak. apply Forall_app in Hk as [Hpre Hpost].
  unfold decode_getResponse, decode_struct. rewrite fold_kvs_app.
  destruct (fold_kvs (getResponse_step rules) pre (mkGetResponse None None)) as [s1|e] eqn:H1.
  2: { split; [intros resp Hr; discriminate Hr | intros; eexists; reflexivity]. }
  pose proof (fold_getResponse_keeps_arguments _ _ _ _ Hpre H1) as Hs1. cbn in Hs1.
  cbn [fold_kvs]. rewrite (getResponse_step_arguments_member _ _ _ _ Hka), Hs1.
  cbn [decode_ptr]. rewrite (decode_payload_listing _ _ _ _ Hkt Hak).
  destruct (decode_elems decode_torrent_ptr None js []) as [l|e0] eqn:Hl.
  - cbn [fold_kvs]. split; [|intros e0' He; discriminate He].
    intros resp Hf. exists l. split; [|reflexivity].
    rewrite (fold_getResponse_keeps_arguments _ _ _ _ Hpost Hf). reflexivity.
  - cbn [fold_kvs]. split; [intros resp Hf; discriminate Hf | intros; eexists; reflexivity].
Qed.

Lemma Forall2_nth_error {A B} (P : A -> B -> Prop) l1 l2 i x :
  Forall2 P l1 l2 -> nth_error l1 i = Some x -> exists y, nth_error l2 i = Some y /\ P x y.
Proof.
  intros H. revert i. induction H as [|a b l1 l2 Hab H IH]; intros i Hi.
  - destruct i; discriminate.
  - destruct i as [|i]; cbn in Hi.
    + injection Hi as <-. exists b. split; [reflexivity | exact Hab].
    + exact (IH i Hi).
Qed.

(** C7 (a defect of the code, from Go 1.10 on). On the spec's example
    listing, whether its members come as in the spec or as the daemon
    writes them ([arguments] first), [ListAll] built with the decoding rules
    before Go 1.10 returns the two torrents in the daemon's order, every
    field other than [Id], [Name] and [Status] at its zero value; built with
    Go 1.10 or later it returns the release's embedded-pointer error and no
    torrent. *)
Theorem ListAll_listing_by_release (msg : string) :
  fst (ListAll PreGo110 (fun _ => true) (srv_const (ok_response listing_body)) w0) =
    Ok [Some (set_field "Status" (VInt64 4) (set_field "Name" (VString "a")
                (set_field "Id" (VInt64 1) zero_Torrent)));
        Some (set_field "Status" (VInt64 16) (set_field "Name" (VString "b")
                (set_field "Id" (VInt64 2) zero_Torrent)))] /\
  fst (ListAll PreGo110 (fun _ => true) (srv_const (ok_response daemon_listing_body)) w0) =
    Ok [Some (set_field "Status" (VInt64 4) (set_field "Name" (VString "a")
                (set_field "Id" (VInt64 1) zero_Torrent)));
        Some (set_field "Status" (VInt64 16) (set_field "Name" (VString "b")
                (set_field "Id" (VInt64 2) zero_Torrent)))] /\
  fst (ListAll (Go110 msg) (fun _ => true) (srv_const (ok_response listing_body)) w0) = Err msg /\
  fst (ListAll (Go110 msg) (fun _ => true) (srv_const (ok_response daemon_listing_body)) w0)
    = Err msg.
Proof. repeat split; vm_compute; reflexivity. Qed.

(** * Further properties of the client and the tools *)

(** ** Address normalisation *)

Lemma prefix_app (p s x : string) :
  String.prefix p s = true -> String.prefix p (s ++ x) = true.
Proof.
  revert p. induction s as [|b s IH]; intros p H.
  - destruct p; [destruct x; reflexivity | discriminate].
  - destruct p as [|a p]; [reflexivity|]. cbn in *.
    destruct (ascii_dec a b); [apply IH; exact H | discriminate].
Qed.

Lemma string_length_append (s t : string) :
  String.length (s ++ t) = (String.length s + String.length t)%nat.
Proof. induction s as [|c s IH]; cbn; [reflexivity | rewrite IH; reflexivity]. Qed.

Lemma substring_append_r (s t : string) m :
  String.substring (String.length s) m (s ++ t) = String.substring 0 m t.
Proof. induction s as [|c s IH]; [reflexivity | exact IH]. Qed.

Lemma substring_whole (t : string) : String.substring 0 (String.length t) t = t.
Proof. induction t as [|c t IH]; cbn; [reflexivity | rewrite IH; reflexivity]. Qed.

Lemma HasSuffix_append (s suf : string) : HasSuffix (s ++ suf) suf = true.
Proof.
  unfold HasSuffix. rewrite string_length_append.
  replace (String.length s + String.length suf - String.length suf)%nat
    with (String.length s) by lia.
  rewrite substring_append_r, substring_whole, String.eqb_refl, andb_true_r.
  apply Nat.leb_le. lia.
Qed.

Lemma normalize_address_prefix (a : string) : HasPrefix (normalize_address a) "http" = true.
Proof.
  unfold normalize_address, HasPrefix.
  set (a1 := if negb (String.prefix "http" a) then "http://" ++ a else a).
  assert (H1 : String.prefix "http" a1 = true).
  { unfold a1. destruct (String.prefix "http" a) eqn:H; [exact H | reflexivity]. }
  destruct (negb (HasSuffix a1 "/transmission/rpc")); [apply prefix_app|]; exact H1.
Qed.

Lemma normalize_address_suffix (a : string) :
  HasSuffix (normalize_address a) "/transmission/rpc" = true.
Proof.
  unfold normalize_address.
  set (a1 := if negb (HasPrefix a "http") then "http://" ++ a else a).
  destruct (HasSuffix a1 "/transmission/rpc") eqn:H; cbn; [exact H | apply HasSuffix_append].
Qed.

(** [New]'s address always begins with [http] and ends with
    [/transmission/rpc], and [New] leaves such an address as it is: giving
    it the address of a client it made yields the same client. *)
Theorem New_address_normal_form (a u p : string) :
  HasPrefix (normalize_address a) "http" = true /\
  HasSuffix (normalize_address a) "/transmission/rpc" = true /\
  New (normalize_address a) u p = New a u p.
Proof.
  split; [apply normalize_address_prefix|split; [apply normalize_address_suffix|]].
  unfold New. f_equal. f_equal.
  unfold normalize_address at 1.
  rewrite normalize_address_prefix. cbn [negb].
  rewrite normalize_address_suffix. reflexivity.
Qed.

(** ** The RPC round trip *)

(** Every request a [doRPC] call sends is a POST of the call's body to the
    client's address, with basic authentication exactly when the user name
    and the password are both non-empty; the call keeps the client's
    address and credentials, and changes its session id only to the one
    value of a first answer 409. [ListAll] and the lifecycle operations
    change the state as their [doRPC] call does. *)
Theorem doRPC_requests_and_client {R : Type} (decode : json -> R + string) url_ok srv req w :
  let w' := snd (doRPC url_ok srv decode req w) in
  (exists new, sent w' = (sent w ++ new)%list /\ (length new <= 2)%nat /\
     Forall (fun h => hr_method h = "POST" /\ hr_url h = address (client w) /\ hr_body h = req /\
                      hr_basic_auth h =
                        if negb (String.eqb (username (client w)) "") &&
                           negb (String.eqb (password (client w)) "")
                        then Some (username (client w), password (client w)) else None) new) /\
  address (client w') = address (client w) /\
  username (client w') = username (client w) /\
  password (client w') = password (client w) /\
  (sessionId (client w') = sessionId (client w) \/
   exists r v, srv (sent w) (build_request (client w) req) = TResp r /\
     StatusCode r = 409%Z /\ session_header r = Some [v] /\ sessionId (client w') = v).
Proof.
  cbn zeta. rewrite doRPC_effect. cbn zeta.
  destruct (url_ok (address (client w))) eqn:Hu.
  2: { split; [exists []; split; [rewrite app_nil_r; reflexivity | split; [cbn; lia | constructor]]|].
       repeat split; left; reflexivity. }
  destruct (srv (sent w) (build_request (client w) req)) as [r|e] eqn:Hs.
  - destruct (Z.eqb (StatusCode r) 409) eqn:H409.
    + destruct (session_header r) as [[|v [|v' l]]|] eqn:Hhd.
      * split; [exists [build_request (client w) req]; split; [reflexivity|];
                split; [cbn; lia | repeat constructor]|].
        repeat split; left; reflexivity.
      * split; [exists [build_request (client w) req; build_request (with_session (client w) v) req];
                split; [reflexivity|]; split; [cbn; lia | repeat constructor]|].
        repeat split. right. exists r, v. repeat split; [apply Z.eqb_eq; exact H409 | exact Hhd].
      * split; [exists [build_request (client w) req]; split; [reflexivity|];
                split; [cbn; lia | repeat constructor]|].
        repeat split; left; reflexivity.
      * split; [exists [build_request (client w) req]; split; [reflexivity|];
                split; [cbn; lia | repeat constructor]|].
        repeat split; left; reflexivity.
    + split; [exists [build_request (client w) req]; split; [reflexivity|];
              split; [cbn; lia | repeat constructor]|].
      repeat split; left; reflexivity.
  - split; [exists [build_request (client w) req]; split; [reflexivity|];
            split; [cbn; lia | repeat constructor]|].
    repeat split; left; reflexivity.
Qed.

(** [doRPC] reads no status code but 409: for any other one (401, 500,
    ...), the outcome is the decoding of the body. *)
Theorem doRPC_ignores_other_status {R : Type} (decode : json -> R + string) url_ok srv req w r :
  url_ok (address (client w)) = true ->
  srv (sent w) (build_request (client w) req) = TResp r ->
  StatusCode r <> 409%Z ->
  fst (doRPC url_ok srv decode req w) =
    match Body r with
    | BodyJSON j => match decode j with inl v => Ok v | inr e => Err e end
    | BodyInvalid e | BodyUnreadable e => Err e
    end.
Proof.
  intros Hu Hs H409. rewrite (doRPC_no_409 decode url_ok srv req w r Hu Hs H409). reflexivity.
Qed.

Lemma doRPC_ignores_other_status_witness :
  fst (doRPC (fun _ => true) (srv_status 500 success_envelope)
             (decode_torrentRequestsResponse PreGo110)
             (marshal_torrentRequestsRequest "torrent-start" [1%Z]) w0) =
    Ok (mkTorrentRequestsResponse (Some (mkResponseBase "success" 1))).
Proof.
  rewrite (doRPC_ignores_other_status (decode_torrentRequestsResponse PreGo110) (fun _ => true)
             (srv_status 500 success_envelope) (marshal_torrentRequestsRequest "torrent-start" [1%Z])
             w0 (mkHttpResponse 500 None (BodyJSON success_envelope))); try reflexivity.
  discriminate.
Defined.

(** After the retry, the second answer's status is not read, not even a
    second 409: its body is decoded as the answer of the call. *)
Theorem doRPC_second_answer_decoded {R : Type} (decode : json -> R + string)
    url_ok srv req w r1 v r2 :
  url_ok (address (client w)) = true ->
  srv (sent w) (build_request (client w) req) = TResp r1 ->
  StatusCode r1 = 409%Z ->
  session_header r1 = Some [v] ->
  srv (sent w ++ [build_request (client w) req])%list
      (build_request (with_session (client w) v) req) = TResp r2 ->
  fst (doRPC url_ok srv decode req w) =
    match Body r2 with
    | BodyJSON j => match decode j with inl x => Ok x | inr e => Err e end
    | BodyInvalid e | BodyUnreadable e => Err e
    end.
Proof.
  intros Hu Hs H409 Hh Hs2.
  unfold doRPC, bind, postRequest. rewrite Hu, Hs. cbn. rewrite H409, Hh. cbn.
  unfold setSessionId. cbn. rewrite Hu, Hs2. cbn.
  destruct (Body r2) as [j|e|e]; [|reflexivity|reflexivity].
  destruct (decode j); reflexivity.
Qed.

Lemma doRPC_second_answer_decoded_witness :
  fst (doRPC (fun _ => true) (srv_409_always "abc123" success_envelope)
             (decode_torrentRequestsResponse PreGo110)
             (marshal_torrentRequestsRequest "torrent-stop" [1%Z]) w0) =
    Ok (mkTorrentRequestsResponse (Some (mkResponseBase "success" 1))).
Proof.
  rewrite (doRPC_second_answer_decoded (decode_torrentRequestsResponse PreGo110) (fun _ => true)
             (srv_409_always "abc123" success_envelope)
             (marshal_torrentRequestsRequest "torrent-stop" [1%Z]) w0
             (mkHttpResponse 409 (Some ["abc123"]) (BodyJSON success_envelope)) "abc123"
             (mkHttpResponse 409 (Some ["abc123"]) (BodyJSON success_envelope)));
    reflexivity.
Defined.

(** When [cli.Do] fails, [doRPC] returns its error. On the first request
    nothing else is sent and the client is unchanged; on the retry the
    client keeps the session id the 409 gave. *)
Theorem doRPC_transport_error {R : Type} (decode : json -> R + string) url_ok srv req w e :
  url_ok (address (client w)) = true ->
  (srv (sent w) (build_request (client w) req) = TErr e ->
   doRPC url_ok srv decode req w =
     (Err e, mkWorld (client w) (sent w ++ [build_request (client w) req])%list)) /\
  (forall r1 v,
   srv (sent w) (build_request (client w) req) = TResp r1 ->
   StatusCode r1 = 409%Z -> session_header r1 = Some [v] ->
   srv (sent w ++ [build_request (client w) req])%list
       (build_request (with_session (client w) v) req) = TErr e ->
   doRPC url_ok srv decode req w =
     (Err e, mkWorld (with_session (client w) v)
               (sent w ++ [build_request (client w) req;
                           build_request (with_session (client w) v) req])%list)).
Proof.
  intros Hu. split.
  - intros Hs. unfold doRPC, bind, postRequest. rewrite Hu, Hs. reflexivity.
  - intros r1 v Hs H409 Hh Hs2.
    unfold doRPC, bind, postRequest. rewrite Hu, Hs. cbn. rewrite H409, Hh. cbn.
    unfold setSessionId. cbn. rewrite Hu, Hs2. cbn. rewrite <- app_assoc. reflexivity.
Qed.

Lemma doRPC_transport_error_witness :
  doRPC (fun _ => true) (srv_down "connection refused") (decode_getResponse PreGo110) listing_req w0 =
    (Err "connection refused", mkWorld client0 [build_request client0 listing_req]) /\
  doRPC (fun _ => true) (srv_409_then_down "abc123" "connection reset")
        (decode_getResponse PreGo110) listing_req w0 =
    (Err "connection reset",
     mkWorld (with_session client0 "abc123")
             [build_request client0 listing_req;
              build_request (with_session client0 "abc123") listing_req]).
Proof.
  split.
  - apply (proj1 (doRPC_transport_error (decode_getResponse PreGo110) (fun _ => true)
                    (srv_down "connection refused") listing_req w0 "connection refused" eq_refl)).
    reflexivity.
  - apply (proj2 (doRPC_transport_error (decode_getResponse PreGo110) (fun _ => true)
                    (srv_409_then_down "abc123" "connection reset") listing_req w0 "connection reset"
                    eq_refl)
                 (mkHttpResponse 409 (Some ["abc123"]) (BodyInvalid "unexpected EOF")) "abc123");
      reflexivity.
Defined.

(** The session id a 409 gives is kept for the next calls: when the daemon
    answers no request carrying it with a 409, the call that learns it
    sends two requests and the next call a single one, carrying it. *)
Theorem session_id_reused {R1 R2 : Type} (d1 : json -> R1 + string) (d2 : json -> R2 + string)
    url_ok srv req1 req2 w r1 v :
  url_ok (address (client w)) = true ->
  srv (sent w) (build_request (client w) req1) = TResp r1 ->
  StatusCode r1 = 409%Z ->
  session_header r1 = Some [v] ->
  (forall hist h r, hr_session h = [v] -> srv hist h = TResp r -> StatusCode r <> 409%Z) ->
  let w1 := snd (doRPC url_ok srv d1 req1 w) in
  let w2 := snd (doRPC url_ok srv d2 req2 w1) in
  sent w2 = (sent w ++ [build_request (client w) req1;
                        build_request (with_session (client w) v) req1;
                        build_request (with_session (client w) v) req2])%list /\
  sessionId (client w2) = v.
Proof.
  intros Hu Hs H409 Hh Hacc. cbn zeta.
  rewrite (doRPC_effect d1). cbn zeta. rewrite Hu, Hs, H409, Hh. cbn [Z.eqb Pos.eqb].
  rewrite (doRPC_effect d2). cbn zeta. cbn [client sent address with_session]. rewrite Hu.
  set (h3 := build_request (with_session (client w) v) req2).
  destruct (srv _ h3) as [r|e] eqn:Hs3.
  - assert (Hn : StatusCode r <> 409%Z) by exact (Hacc _ h3 r eq_refl Hs3).
    apply Z.eqb_neq in Hn. rewrite Hn. cbn. rewrite <- app_assoc. split; reflexivity.
  - cbn. rewrite <- app_assoc. split; reflexivity.
Qed.

Lemma session_id_reused_witness :
  sent (snd (doRPC (fun _ => true) (srv_session "abc123" (ok_response success_envelope))
                   (decode_torrentRequestsResponse PreGo110)
                   (marshal_torrentRequestsRequest "torrent-start" [2%Z])
                   (snd (doRPC (fun _ => true) (srv_session "abc123" (ok_response success_envelope))
                               (decode_getResponse PreGo110) listing_req w0)))) =
    [build_request client0 listing_req;
     build_request (with_session client0 "abc123") listing_req;
     build_request (with_session client0 "abc123")
                   (marshal_torrentRequestsRequest "torrent-start" [2%Z])] /\
  sessionId (client (snd (doRPC (fun _ => true) (srv_session "abc123" (ok_response success_envelope))
                   (decode_torrentRequestsResponse PreGo110)
                   (marshal_torrentRequestsRequest "torrent-start" [2%Z])
                   (snd (doRPC (fun _ => true) (srv_session "abc123" (ok_response success_envelope))
                               (decode_getResponse PreGo110) listing_req w0))))) = "abc123".
Proof.
  apply (session_id_reused (decode_getResponse PreGo110) (decode_torrentRequestsResponse PreGo110)
           (fun _ => true) (srv_session "abc123" (ok_response success_envelope)) listing_req
           (marshal_torrentRequestsRequest "torrent-start" [2%Z]) w0
           (mkHttpResponse 409 (Some ["abc123"]) (BodyInvalid "unexpected EOF")) "abc123");
    try reflexivity.
  intros hist h r Hh Hr. unfold srv_session in Hr. rewrite Hh in Hr. cbn in Hr.
  injection Hr as <-. discriminate.
Defined.

(** ** The lifecycle operations and their [*Torrents] variants *)

Lemma torrentRequests_world rules url_ok srv method ids w :
  ids <> [] ->
  snd (torrentRequests rules url_ok srv method ids w) =
  snd (doRPC url_ok srv (decode_torrentRequestsResponse rules)
             (marshal_torrentRequestsRequest method ids) w).
Proof.
  intros Hne. destruct ids as [|i ids]; [congruence|].
  unfold torrentRequests, bind.
  destruct (doRPC url_ok srv (decode_torrentRequestsResponse rules)
                  (marshal_torrentRequestsRequest method (i :: ids)) w) as [[resp|e|m] w'];
    try reflexivity.
  destruct (torrentRequestsResponse_base resp) as [rb|]; [|reflexivity].
  destruct (negb (String.eqb (Result rb) "success")); reflexivity.
Qed.

Lemma doRPC_first_request {R : Type} (decode : json -> R + string) url_ok srv req w :
  url_ok (address (client w)) = true ->
  exists rest, sent (snd (doRPC url_ok srv decode req w)) =
               (sent w ++ build_request (client w) req :: rest)%list.
Proof.
  intros Hu. rewrite doRPC_effect. cbn zeta. rewrite Hu.
  destruct (srv (sent w) (build_request (client w) req)) as [r|e].
  - destruct (Z.eqb (StatusCode r) 409).
    + destruct (session_header r) as [[|v [|v' l]]|]; cbn; eexists; reflexivity.
    + cbn; eexists; reflexivity.
  - cbn; eexists; reflexivity.
Qed.

(** Each lifecycle operation given a non-empty id list first sends the
    body [{"method": name, "tag": 1, "arguments": {"ids": ids}}], the ids
    in the order given and repeats kept, [name] being [torrent-start],
    [torrent-start-now], [torrent-stop], [torrent-verify],
    [torrent-reannounce] and [torrent-remove]. *)
Theorem lifecycle_request_body rules url_ok srv ids w :
  ids <> [] ->
  url_ok (address (client w)) = true ->
  Forall (fun '(op, name) =>
            exists rest, sent (snd (op ids w)) =
              (sent w ++ build_request (client w)
                 (JObj [("method", JStr name); ("tag", JInt 1);
                        ("arguments", JObj [("ids", JArr (map JInt ids))])]) :: rest)%list)
    [(Start rules url_ok srv, "torrent-start"); (StartNow rules url_ok srv, "torrent-start-now");
     (Stop rules url_ok srv, "torrent-stop"); (Verify rules url_ok srv, "torrent-verify");
     (Reannounce rules url_ok srv, "torrent-reannounce"); (Remove rules url_ok srv, "torrent-remove")].
Proof.
  intros Hne Hu.
  assert (Hb : forall name, String.eqb name "" = false ->
            marshal_torrentRequestsRequest name ids =
            JObj [("method", JStr name); ("tag", JInt 1);
                  ("arguments", JObj [("ids", JArr (map JInt ids))])]).
  { intros name Hn. unfold marshal_torrentRequestsRequest, marshal_requestBase. rewrite Hn.
    destruct ids; [congruence | reflexivity]. }
  assert (Hop : forall name, String.eqb name "" = false ->
            exists rest, sent (snd (torrentRequests rules url_ok srv name ids w)) =
              (sent w ++ build_request (client w)
                 (JObj [("method", JStr name); ("tag", JInt 1);
                        ("arguments", JObj [("ids", JArr (map JInt ids))])]) :: rest)%list).
  { intros name Hn. rewrite (torrentRequests_world _ _ _ _ _ _ Hne), <- (Hb name Hn).
    apply doRPC_first_request. exact Hu. }
  repeat constructor; apply Hop; reflexivity.
Qed.

Lemma lifecycle_request_body_witness :
  Forall (fun '(op, name) =>
            exists rest, sent (snd (op [3; 1; 3]%Z w0)) =
              (sent w0 ++ build_request (client w0)
                 (JObj [("method", JStr name); ("tag", JInt 1);
                        ("arguments", JObj [("ids", JArr (map JInt [3; 1; 3]%Z))])]) :: rest)%list)
    [(Start PreGo110 (fun _ => true) (srv_result "success"), "torrent-start");
     (StartNow PreGo110 (fun _ => true) (srv_result "success"), "torrent-start-now");
     (Stop PreGo110 (fun _ => true) (srv_result "success"), "torrent-stop");
     (Verify PreGo110 (fun _ => true) (srv_result "success"), "torrent-verify");
     (Reannounce PreGo110 (fun _ => true) (srv_result "success"), "torrent-reannounce");
     (Remove PreGo110 (fun _ => true) (srv_result "success"), "torrent-remove")].
Proof.
  apply (lifecycle_request_body PreGo110 (fun _ => true) (srv_result "success") [3; 1; 3]%Z w0);
    [discriminate | reflexivity].
Defined.

Lemma torrentsToIds_nil_element ts : In None ts -> torrentsToIds ts = None.
Proof.
  induction ts as [|[t|] ts IH]; intros H; [destruct H | | reflexivity].
  destruct H as [H|H]; [discriminate|]. cbn. rewrite (IH H). reflexivity.
Qed.

Lemma torrentsToIds_map_Some ts :
  torrentsToIds (map Some ts) = Some (map (fun t => Torrent_int64 t "Id") ts).
Proof. induction ts as [|t ts IH]; cbn; [reflexivity | rewrite IH; reflexivity]. Qed.

(** The [*Torrents] variants: a nil element anywhere in the list makes
    them panic before any request, the state left as it was; a list
    without nil element is handed on as the ids of its torrents, in
    order. *)
Theorem torrents_variants rules url_ok srv ts w :
  Forall (fun '(wrap, op) =>
            (In None ts -> wrap ts w = (Panic nil_deref, w)) /\
            (forall ts', ts = map Some ts' ->
               wrap ts w = op (map (fun t => Torrent_int64 t "Id") ts') w))
    [(StartTorrents rules url_ok srv, Start rules url_ok srv);
     (StartNowTorrents rules url_ok srv, StartNow rules url_ok srv);
     (StopTorrents rules url_ok srv, Stop rules url_ok srv);
     (VerifyTorrents rules url_ok srv, Verify rules url_ok srv);
     (ReannounceTorrents rules url_ok srv, Reannounce rules url_ok srv);
     (RemoveTorrents rules url_ok srv, Remove rules url_ok srv)].
Proof.
  assert (H : forall op : list Z -> M unit,
            (In None ts -> with_torrent_ids op ts w = (Panic nil_deref, w)) /\
            (forall ts', ts = map Some ts' ->
               with_torrent_ids op ts w = op (map (fun t => Torrent_int64 t "Id") ts') w)).
  { intros op. unfold with_torrent_ids. split.
    - intros Hn. rewrite (torrentsToIds_nil_element _ Hn). reflexivity.
    - intros ts' ->. rewrite torrentsToIds_map_Some. reflexivity. }
  repeat constructor; apply H.
Qed.

Lemma torrents_variants_witness :
  StopTorrents PreGo110 (fun _ => true) (srv_result "success") [Some zero_Torrent; None] w0
    = (Panic nil_deref, w0).
Proof.
  apply (proj1 (Forall_inv (Forall_inv_tail (Forall_inv_tail
           (torrents_variants PreGo110 (fun _ => true) (srv_result "success")
                              [Some zero_Torrent; None] w0))))).
  right; left; reflexivity.
Defined.

(** ** Listings *)

Lemma torrent_field_set_same n v x t :
  torrent_field t n = Some x -> torrent_field (set_field n v t) n = Some v.
Proof.
  unfold torrent_field, set_field. induction t as [|[m y] t IH]; [discriminate|]. cbn.
  destruct (String.eqb n m) eqn:H; cbn; rewrite ?H; [reflexivity | exact IH].
Qed.

Lemma Torrent_lookup_id : Torrent_lookup "id" = Some ("Id", "id", TInt64).
Proof. vm_compute. reflexivity. Qed.

Lemma Id_in_schema : In ("Id", "id", TInt64) Torrent_schema.
Proof. exact (proj1 (find_some _ _ Torrent_lookup_id)). Qed.

Lemma decode_torrent_id pre post i t :
  Forall (fun '(k, _) => key_matches k "id" = false) (pre ++ post) ->
  decode_torrent_ptr (JObj (pre ++ ("id", JInt i) :: post)) None = inl t ->
  exists t', t = Some t' /\ Torrent_int64 t' "Id" = i.
Proof.
  intros Hk Hd. apply Forall_app in Hk as [Hpre Hpost].
  unfold decode_torrent_ptr, decode_ptr in Hd. rewrite fold_kvs_app in Hd.
  destruct (fold_kvs Torrent_step pre zero_Torrent) as [t1|e] eqn:H1; [|discriminate].
  assert (Hid1 : torrent_field t1 "Id" = Some (VInt64 0)).
  { rewrite (fold_Torrent_other_field _ _ _ _ _ _ Id_in_schema Hpre H1).
    exact (zero_Torrent_field _ _ _ Id_in_schema). }
  cbn [fold_kvs] in Hd. unfold Torrent_step at 1 in Hd. rewrite Torrent_lookup_id, Hid1 in Hd.
  cbn [decode_field decode_int64] in Hd.
  destruct (int64_in_range i); [|discriminate].
  destruct (fold_kvs Torrent_step post (set_field "Id" (VInt64 i) t1)) as [t2|e] eqn:H2;
    [|discriminate].
  injection Hd as <-. exists t2. split; [reflexivity|].
  unfold Torrent_int64.
  rewrite (fold_Torrent_other_field _ _ _ _ _ _ Id_in_schema Hpost H2).
  rewrite (torrent_field_set_same _ _ _ _ Hid1). reflexivity.
Qed.

Lemma decoded_listing_ids js ts ids :
  decode_elems decode_torrent_ptr None js [] = inl ts ->
  Forall2 (fun j i => exists pre post, j = JObj (pre ++ ("id", JInt i) :: post) /\
             Forall (fun '(k, _) => key_matches k "id" = false) (pre ++ post)) js ids ->
  torrentsToIds ts = Some ids.
Proof.
  intros Hd Hids. pose proof (decode_elems_Forall2 _ _ _ _ Hd) as Hall. clear Hd.
  revert ts Hall. induction Hids as [|j i js ids Hji Hids IH]; intros ts Hall.
  - inversion Hall; subst. reflexivity.
  - inversion Hall as [|? t ? ts' Ht Hts]; subst.
    destruct Hji as [pre [post [-> Hk]]].
    destruct (decode_torrent_id _ _ _ _ Hk Ht) as [t' [-> Hid]].
    cbn. rewrite (IH ts' Hts), Hid. reflexivity.
Qed.

(** What [ListAll] returns for an answer with one [arguments] member
    holding one [torrents] array. *)
Lemma ListAll_ok_listing rules url_ok srv w r pre ka apre kt js apost post ts :
  decoded_answer url_ok srv listing_req w r ->
  Body r = BodyJSON (JObj (pre ++ (ka, JObj (apre ++ (kt, JArr js) :: apost)) :: post)) ->
  key_matches ka "arguments" = true -> key_matches kt "torrents" = true ->
  Forall (fun '(k, _) => key_matches k "arguments" = false) (pre ++ post) ->
  Forall (fun '(k, _) => key_matches k "torrents" = false) (apre ++ apost) ->
  fst (ListAll rules url_ok srv w) = Ok ts ->
  decode_elems decode_torrent_ptr None js [] = inl ts.
Proof.
  intros Ha Hb Hka Hkt Hk Hak Hok.
  rewrite (ListAll_answer rules _ _ _ _ _ Ha Hb) in Hok.
  destruct (decode_getResponse_listing rules pre ka apre kt js apost post Hka Hkt Hk Hak) as [Hd _].
  destruct (decode_getResponse rules
              (JObj (pre ++ (ka, JObj (apre ++ (kt, JArr js) :: apost)) :: post)))
    as [resp|e] eqn:Hr; [|discriminate].
  destruct (Hd resp eq_refl) as [l [Hargs Hl]].
  destruct (getResponse_base resp) as [rb|]; [|discriminate].
  destruct (negb _); [discriminate|]. rewrite Hargs in Hok. injection Hok as <-. exact Hl.
Qed.

Lemma ListAll_listing_error rules url_ok srv w r pre ka apre kt js apost post e0 :
  decoded_answer url_ok srv listing_req w r ->
  Body r = BodyJSON (JObj (pre ++ (ka, JObj (apre ++ (kt, JArr js) :: apost)) :: post)) ->
  key_matches ka "arguments" = true -> key_matches kt "torrents" = true ->
  Forall (fun '(k, _) => key_matches k "arguments" = false) (pre ++ post) ->
  Forall (fun '(k, _) => key_matches k "torrents" = false) (apre ++ apost) ->
  decode_elems decode_torrent_ptr None js [] = inr e0 ->
  exists e, fst (ListAll rules url_ok srv w) = Err e.
Proof.
  intros Ha Hb Hka Hkt Hk Hak Hl.
  rewrite (ListAll_answer rules _ _ _ _ _ Ha Hb).
  destruct (proj2 (decode_getResponse_listing rules pre ka apre kt js apost post Hka Hkt Hk Hak)
              e0 Hl) as [e He].
  rewrite He. exists e. reflexivity.
Qed.

(** Whatever the Go release, when [ListAll] returns the torrents of an
    answer with one [arguments] member holding one [torrents] array (the
    answer to the first request or to the retry, its members in any
    order), [torrentsToIds] takes from them the [id] members of the
    daemon's objects, in the daemon's order; so each [*Torrents] variant
    applied to what [ListAll] returned runs its operation on exactly these
    ids. *)
Theorem listing_ids_round_trip rules url_ok srv w r pre ka apre kt js apost post ts ids :
  decoded_answer url_ok srv listing_req w r ->
  Body r = BodyJSON (JObj (pre ++ (ka, JObj (apre ++ (kt, JArr js) :: apost)) :: post)) ->
  key_matches ka "arguments" = true -> key_matches kt "torrents" = true ->
  Forall (fun '(k, _) => key_matches k "arguments" = false) (pre ++ post) ->
  Forall (fun '(k, _) => key_matches k "torrents" = false) (apre ++ apost) ->
  Forall2 (fun j i => exists pre' post', j = JObj (pre' ++ ("id", JInt i) :: post') /\
             Forall (fun '(k, _) => key_matches k "id" = false) (pre' ++ post')) js ids ->
  fst (ListAll rules url_ok srv w) = Ok ts ->
  torrentsToIds ts = Some ids /\
  (forall rules' url_ok' srv',
     StartTorrents rules' url_ok' srv' ts = Start rules' url_ok' srv' ids /\
     StartNowTorrents rules' url_ok' srv' ts = StartNow rules' url_ok' srv' ids /\
     StopTorrents rules' url_ok' srv' ts = Stop rules' url_ok' srv' ids /\
     VerifyTorrents rules' url_ok' srv' ts = Verify rules' url_ok' srv' ids /\
     ReannounceTorrents rules' url_ok' srv' ts = Reannounce rules' url_ok' srv' ids /\
     RemoveTorrents rules' url_ok' srv' ts = Remove rules' url_ok' srv' ids).
Proof.
  intros Ha Hb Hka Hkt Hk Hak Hids Hok.
  pose proof (decoded_listing_ids _ _ _
                (ListAll_ok_listing _ _ _ _ _ _ _ _ _ _ _ _ _ Ha Hb Hka Hkt Hk Hak Hok) Hids) as H.
  split; [exact H|]. intros rules' url_ok' srv'.
  unfold StartTorrents, StartNowTorrents, StopTorrents, VerifyTorrents, ReannounceTorrents,
    RemoveTorrents, with_torrent_ids.
  rewrite H. repeat split.
Qed.

Lemma listing_ids_round_trip_witness :
  torrentsToIds [Some (set_field "Status" (VInt64 4) (set_field "Name" (VString "a")
                         (set_field "Id" (VInt64 1) zero_Torrent)));
                 Some (set_field "Status" (VInt64 16) (set_field "Name" (VString "b")
                         (set_field "Id" (VInt64 2) zero_Torrent)))] = Some [1; 2]%Z.
Proof.
  refine (proj1 (listing_ids_round_trip PreGo110 (fun _ => true)
            (srv_const (ok_response daemon_listing_body)) w0 (ok_response daemon_listing_body)
            [] "arguments" []  "torrents"
            [JObj [("id", JInt 1); ("name", JStr "a"); ("status", JInt 4)];
             JObj [("id", JInt 2); ("name", JStr "b"); ("status", JInt 16)]] []
            [("result", JStr "success"); ("tag", JInt 1)] _ [1; 2]%Z
            _ eq_refl eq_refl eq_refl _ _ _ _)).
  - apply first_answer; [reflexivity | reflexivity | discriminate].
  - repeat constructor.
  - constructor.
  - constructor; [|constructor; [|constructor]].
    + exists [], [("name", JStr "a"); ("status", JInt 4)]. split; [reflexivity|].
      repeat constructor.
    + exists [], [("name", JStr "b"); ("status", JInt 16)]. split; [reflexivity|].
      repeat constructor.
  - vm_compute. reflexivity.
Defined.

Lemma decode_elems_error {A} (d : json -> A -> A + string) (z : A) js j e0 :
  In j js -> d j z = inr e0 -> exists e, decode_elems d z js [] = inr e.
Proof.
  intros Hin Hj. induction js as [|j' js IH]; [destruct Hin|]. cbn.
  destruct Hin as [<-|Hin].
  - rewrite Hj. eexists; reflexivity.
  - destruct (d j' z) as [x|e]; [|eexists; reflexivity].
    destruct (IH Hin) as [e He]. rewrite He. eexists; reflexivity.
Qed.

(** Whatever the Go release, for an answer with one [arguments] member
    holding one [torrents] array [js] (the answer to the first request or
    to the retry, its members in any order, keys matched as
    [encoding/json] matches them): when [ListAll] succeeds it returns one
    element per element of [js], in the order of [js], each decoded from
    its element alone; a [null] element gives a nil [*Torrent] at its
    place, and in a torrent decoded from an object every field that no key
    of the object names keeps its zero value. When an element of [js] does
    not decode (neither an object nor [null], or an object with a member
    of the wrong type or out of range), [ListAll] returns an error and no
    torrent. *)
Theorem ListAll_listing_elements rules url_ok srv w r pre ka apre kt js apost post :
  decoded_answer url_ok srv listing_req w r ->
  Body r = BodyJSON (JObj (pre ++ (ka, JObj (apre ++ (kt, JArr js) :: apost)) :: post)) ->
  key_matches ka "arguments" = true -> key_matches kt "torrents" = true ->
  Forall (fun '(k, _) => key_matches k "arguments" = false) (pre ++ post) ->
  Forall (fun '(k, _) => key_matches k "torrents" = false) (apre ++ apost) ->
  (forall ts, fst (ListAll rules url_ok srv w) = Ok ts ->
     Forall2 (fun j t => decode_torrent_ptr j None = inl t) js ts /\
     (forall i, nth_error js i = Some JNull -> nth_error ts i = Some None) /\
     (forall i kvs, nth_error js i = Some (JObj kvs) ->
        exists t, nth_error ts i = Some (Some t) /\
          forall n tag ty, In (n, tag, ty) Torrent_schema ->
            Forall (fun '(k, _) => key_matches k tag = false) kvs ->
            torrent_field t n = Some (zero_value ty))) /\
  (forall j e0, In j js -> decode_torrent_ptr j None = inr e0 ->
     exists e, fst (ListAll rules url_ok srv w) = Err e).
Proof.
  intros Ha Hb Hka Hkt Hk Hak. split.
  - intros ts Hok.
    pose proof (decode_elems_Forall2 _ _ _ _
                  (ListAll_ok_listing _ _ _ _ _ _ _ _ _ _ _ _ _ Ha Hb Hka Hkt Hk Hak Hok)) as Hall.
    split; [exact Hall|]. split.
    + intros i Hi. destruct (Forall2_nth_error _ _ _ _ _ Hall Hi) as [y [Hy Hdy]].
      cbn in Hdy. injection Hdy as <-. exact Hy.
    + intros i kvs Hi.
      destruct (Forall2_nth_error _ _ _ _ _ Hall Hi) as [y [Hy Hdec]].
      unfold decode_torrent_ptr, decode_ptr in Hdec.
      destruct (fold_kvs Torrent_step kvs zero_Torrent) as [t|e] eqn:Hf; [|discriminate].
      injection Hdec as <-. exists t. split; [exact Hy|].
      intros n tag ty Hin Hkeys.
      rewrite (fold_Torrent_other_field _ _ _ _ _ _ Hin Hkeys Hf).
      exact (zero_Torrent_field _ _ _ Hin).
  - intros j e0 Hin Hj. destruct (decode_elems_error _ _ _ _ _ Hin Hj) as [e He].
    exact (ListAll_listing_error _ _ _ _ _ _ _ _ _ _ _ _ _ Ha Hb Hka Hkt Hk Hak He).
Qed.

(** A fresh client (the listing comes after a 409): the [null] element
    comes back as nil; a string [id] makes the listing fail. *)
Lemma ListAll_listing_elements_witness :
  nth_error [Some (set_field "Id" (VInt64 1) zero_Torrent); None] 1 = Some None /\
  exists e, fst (ListAll PreGo110 (fun _ => true) (srv_const (ok_response bad_listing_body)) w0)
              = Err e.
Proof.
  split.
  - refine (proj1 (proj2 (proj1 (ListAll_listing_elements PreGo110 (fun _ => true)
              (srv_409_first (Some ["abc123"]) (ok_response null_listing_body)) w0
              (ok_response null_listing_body) [] "arguments" [] "torrents"
              [JObj [("id", JInt 1)]; JNull] [] [("result", JStr "success"); ("tag", JInt 1)]
              _ eq_refl eq_refl eq_refl _ _) _ _)) 1%nat eq_refl).
    + apply (retry_answer _ _ _ _ (mkHttpResponse 409 (Some ["abc123"]) (BodyInvalid "unexpected EOF"))
               "abc123"); reflexivity.
    + repeat constructor.
    + constructor.
    + vm_compute. reflexivity.
  - refine (proj2 (ListAll_listing_elements PreGo110 (fun _ => true)
              (srv_const (ok_response bad_listing_body)) w0
              (ok_response bad_listing_body) [] "arguments" [] "torrents"
              [JObj [("id", JInt 1)]; JObj [("id", JStr "2")]] []
              [("result", JStr "success"); ("tag", JInt 1)]
              _ eq_refl eq_refl eq_refl _ _) (JObj [("id", JStr "2")])
              (type_error (JStr "2") "int64") _ _).
    + apply first_answer; [reflexivity | reflexivity | discriminate].
    + repeat constructor.
    + constructor.
    + right; left; reflexivity.
    + vm_compute. reflexivity.
Defined.

Lemma fold_getResponse_no_members rules kvs :
  Forall (fun '(k, _) => key_matches k "result" = false /\ key_matches k "tag" = false /\
                         key_matches k "arguments" = false) kvs ->
  fold_kvs (getResponse_step rules) kvs (mkGetResponse None None) = inl (mkGetResponse None None).
Proof.
  induction kvs as [|[k j] kvs IH]; intros H; [reflexivity|].
  inversion H as [|? ? Hx Hrest]; subst. destruct Hx as [Hr [Ht Ha]]. cbn.
  unfold getResponse_step at 1. rewrite (embedded_step_other _ _ _ _ Hr Ht), Ha.
  exact (IH Hrest).
Qed.

Lemma fold_torrentRequestsResponse_no_members rules kvs :
  Forall (fun '(k, _) => key_matches k "result" = false /\ key_matches k "tag" = false /\
                         key_matches k "arguments" = false) kvs ->
  fold_kvs (torrentRequestsResponse_step rules) kvs (mkTorrentRequestsResponse None) =
    inl (mkTorrentRequestsResponse None).
Proof.
  induction kvs as [|[k j] kvs IH]; intros H; [reflexivity|].
  inversion H as [|? ? Hx Hrest]; subst. destruct Hx as [Hr [Ht Ha]]. cbn.
  unfold torrentRequestsResponse_step at 1. rewrite (embedded_step_other _ _ _ _ Hr Ht).
  exact (IH Hrest).
Qed.

(** An answer without [result] (the JSON [null], or an object none of whose
    keys is [result], [tag] or [arguments], such as [{}]) leaves the
    embedded [*responseBase] nil: reading [resp.Result] then panics, in
    [ListAll] and in every lifecycle operation given ids, whether the
    answer is the one to the first request or the one to the retry after
    a 409, whatever Go release the package is built with. *)
Theorem answer_without_result_panics rules url_ok srv w j :
  (j = JNull \/
   exists kvs, j = JObj kvs /\
     Forall (fun '(k, _) => key_matches k "result" = false /\ key_matches k "tag" = false /\
                            key_matches k "arguments" = false) kvs) ->
  (forall r, decoded_answer url_ok srv listing_req w r -> Body r = BodyJSON j ->
     fst (ListAll rules url_ok srv w) = Panic nil_deref) /\
  (forall method ids r, ids <> [] ->
     decoded_answer url_ok srv (marshal_torrentRequestsRequest method ids) w r ->
     Body r = BodyJSON j ->
     fst (torrentRequests rules url_ok srv method ids w) = Panic nil_deref).
Proof.
  intros Hj. split.
  - intros r Ha Hb. rewrite (ListAll_answer rules _ _ _ _ _ Ha Hb).
    unfold decode_getResponse, decode_struct.
    destruct Hj as [->|[kvs [-> Hk]]]; [reflexivity|].
    rewrite (fold_getResponse_no_members _ _ Hk). reflexivity.
  - intros method ids r Hne Ha Hb. rewrite (torrentRequests_answer rules _ _ _ _ _ _ _ Hne Ha Hb).
    unfold decode_torrentRequestsResponse, decode_struct.
    destruct Hj as [->|[kvs [-> Hk]]]; [reflexivity|].
    rewrite (fold_torrentRequestsResponse_no_members _ _ Hk). reflexivity.
Qed.

(** [{}] answered to the retry of a listing under Go 1.10's rules, and
    to a first [torrent-remove] under the older rules. *)
Lemma answer_without_result_panics_witness :
  fst (ListAll (Go110 go110_embedded_msg) (fun _ => true)
         (srv_409_first (Some ["abc123"]) (ok_response (JObj []))) w0) = Panic nil_deref /\
  fst (torrentRequests PreGo110 (fun _ => true) (srv_const (ok_response (JObj [])))
                       "torrent-remove" [5%Z] w0) = Panic nil_deref.
Proof.
  assert (Hj : JObj [] = JNull \/
     exists kvs, JObj [] = JObj kvs /\
       Forall (fun '(k, _) => key_matches k "result" = false /\ key_matches k "tag" = false /\
                              key_matches k "arguments" = false) kvs)
    by (right; exists []; split; [reflexivity | constructor]).
  split.
  - apply (proj1 (answer_without_result_panics (Go110 go110_embedded_msg) (fun _ => true)
             (srv_409_first (Some ["abc123"]) (ok_response (JObj []))) w0 (JObj []) Hj)
             (ok_response (JObj []))); [|reflexivity].
    apply (retry_answer _ _ _ _ (mkHttpResponse 409 (Some ["abc123"]) (BodyInvalid "unexpected EOF"))
             "abc123"); reflexivity.
  - apply (proj2 (answer_without_result_panics PreGo110 (fun _ => true)
             (srv_const (ok_response (JObj []))) w0 (JObj []) Hj)
             "torrent-remove" [5%Z] (ok_response (JObj []))); [discriminate | | reflexivity].
    apply first_answer; [reflexivity | reflexivity | discriminate].
Defined.

(** ** Since Go 1.10: the embedded [*responseBase] cannot be set *)

Lemma embedded_step_base_member msg k j :
  (key_matches k "result" || key_matches k "tag") = true ->
  embedded_step (Go110 msg) k j None = Some (inr msg).
Proof.
  intros Hk. unfold embedded_step, responseBase_step.
  destruct (key_matches k "result"); [reflexivity|].
  cbn in Hk. rewrite Hk. reflexivity.
Qed.

Lemma fold_torrentRequestsResponse_other rules kvs r :
  Forall (fun '(k, _) => key_matches k "result" = false /\ key_matches k "tag" = false) kvs ->
  fold_kvs (torrentRequestsResponse_step rules) kvs r = inl r.
Proof.
  revert r. induction kvs as [|[k j] kvs IH]; intros r H; [reflexivity|].
  inversion H as [|? ? Hx Hrest]; subst. destruct Hx as [Hr Ht]. cbn [fold_kvs].
  unfold torrentRequestsResponse_step at 1. rewrite (embedded_step_other _ _ _ _ Hr Ht).
  exact (IH r Hrest).
Qed.

(** Built with Go 1.10 or later, whose [encoding/json] reports the
    release's own message [msg] for a nil embedded pointer to an
    unexported struct: an answer object with a [result] or [tag] member
    (keys matched as [encoding/json] matches them) makes [ListAll] fail,
    whether the answer is the one to the first request or the one to the
    retry after a 409, whatever else the object holds, a successful
    listing included; its error is [msg] when the members before the first
    [result] or [tag] member decode. Every lifecycle operation given ids
    fails with [msg] on such an answer. *)
Theorem envelope_decoding_fails_since_go110 msg url_ok srv w pre k jv post :
  (key_matches k "result" || key_matches k "tag") = true ->
  Forall (fun '(k', _) => key_matches k' "result" = false /\ key_matches k' "tag" = false) pre ->
  (forall r, decoded_answer url_ok srv listing_req w r ->
     Body r = BodyJSON (JObj (pre ++ (k, jv) :: post)) ->
     (exists e, fst (ListAll (Go110 msg) url_ok srv w) = Err e) /\
     ((exists s, fold_kvs (getResponse_step (Go110 msg)) pre (mkGetResponse None None) = inl s) ->
      fst (ListAll (Go110 msg) url_ok srv w) = Err msg)) /\
  (forall method ids r, ids <> [] ->
     decoded_answer url_ok srv (marshal_torrentRequestsRequest method ids) w r ->
     Body r = BodyJSON (JObj (pre ++ (k, jv) :: post)) ->
     fst (torrentRequests (Go110 msg) url_ok srv method ids w) = Err msg).
Proof.
  intros Hk Hpre. split.
  - intros r Ha Hb. rewrite (ListAll_answer _ _ _ _ _ _ Ha Hb).
    unfold decode_getResponse, decode_struct. rewrite fold_kvs_app.
    destruct (fold_kvs (getResponse_step (Go110 msg)) pre (mkGetResponse None None))
      as [s1|e] eqn:H1.
    + pose proof (fold_getResponse_keeps_base _ _ _ _ Hpre H1) as Hs1. cbn in Hs1.
      assert (Hst : getResponse_step (Go110 msg) k jv s1 = inr msg)
        by (unfold getResponse_step; rewrite Hs1, (embedded_step_base_member _ _ _ Hk);
            reflexivity).
      cbn [fold_kvs]. rewrite Hst.
      split; [eexists; reflexivity | intros _; reflexivity].
    + split; [eexists; reflexivity | intros [s Hs]; discriminate].
  - intros method ids r Hne Ha Hb. rewrite (torrentRequests_answer _ _ _ _ _ _ _ _ Hne Ha Hb).
    unfold decode_torrentRequestsResponse, decode_struct. rewrite fold_kvs_app.
    rewrite (fold_torrentRequestsResponse_other _ _ _ Hpre). cbn [fold_kvs].
    assert (Hst : torrentRequestsResponse_step (Go110 msg) k jv (mkTorrentRequestsResponse None)
                  = inr msg)
      by (unfold torrentRequestsResponse_step; cbn [torrentRequestsResponse_base];
          rewrite (embedded_step_base_member _ _ _ Hk); reflexivity).
    rewrite Hst. reflexivity.
Qed.

(** Go 1.10's message: the daemon's listing, [arguments] first, answered to
    the retry of [ListAll], and a first [torrent-start]. *)
Lemma envelope_decoding_fails_since_go110_witness :
  fst (ListAll (Go110 go110_embedded_msg) (fun _ => true)
         (srv_409_first (Some ["abc123"]) (ok_response daemon_listing_body)) w0)
    = Err go110_embedded_msg /\
  fst (torrentRequests (Go110 go110_embedded_msg) (fun _ => true)
         (srv_const (ok_response daemon_listing_body)) "torrent-start" [1%Z] w0)
    = Err go110_embedded_msg.
Proof.
  assert (Hpre : Forall (fun '(k', _) => key_matches k' "result" = false /\
                                         key_matches k' "tag" = false)
                   [("arguments", listing_arguments)])
    by (repeat constructor).
  split.
  - refine (proj2 (proj1 (envelope_decoding_fails_since_go110 go110_embedded_msg (fun _ => true)
              (srv_409_first (Some ["abc123"]) (ok_response daemon_listing_body)) w0
              [("arguments", listing_arguments)] "result" (JStr "success") [("tag", JInt 1)]
              eq_refl Hpre) (ok_response daemon_listing_body) _ eq_refl) _).
    + apply (retry_answer _ _ _ _ (mkHttpResponse 409 (Some ["abc123"]) (BodyInvalid "unexpected EOF"))
               "abc123"); reflexivity.
    + eexists. vm_compute. reflexivity.
  - apply (proj2 (envelope_decoding_fails_since_go110 go110_embedded_msg (fun _ => true)
              (srv_const (ok_response daemon_listing_body)) w0
              [("arguments", listing_arguments)] "result" (JStr "success") [("tag", JInt 1)]
              eq_refl Hpre) "torrent-start" [1%Z] (ok_response daemon_listing_body));
      [discriminate | | reflexivity].
    apply first_answer; [reflexivity | reflexivity | discriminate].
Defined.

(** ** The command-line tools *)

Lemma string_append_assoc (a b c : string) : (a ++ b) ++ c = a ++ (b ++ c).
Proof. induction a as [|x a IH]; cbn; [reflexivity | rewrite IH; reflexivity]. Qed.

Lemma string_append_empty (a : string) : a ++ "" = a.
Proof. induction a as [|x a IH]; cbn; [reflexivity | rewrite IH; reflexivity]. Qed.

Lemma cli_line_text t :
  TransmissionCli.line t =
  Torrent_string t "Name" ++ " (" ++ GoSprintf.dec (Torrent_int64 t "Id") ++ ") %!s(int64=" ++
  GoSprintf.dec (Torrent_int64 t "Status") ++ ")" ++ TransmissionCli.nl.
Proof.
  unfold TransmissionCli.line, GoSprintf.printed, GoSprintf.Sprintf. cbn.
  rewrite !string_append_assoc. reflexivity.
Qed.

Lemma sprintf_error_v (prefix e : string) :
  GoSprintf.one_of "%" prefix = false ->
  GoSprintf.sprintf (list_ascii_of_string (prefix ++ "%v")) [GoSprintf.AError e] =
    Some (prefix ++ e).
Proof.
  induction prefix as [|c prefix IH]; intros Hp.
  - cbn. rewrite string_append_empty. reflexivity.
  - unfold GoSprintf.one_of in Hp. cbn [list_ascii_of_string existsb] in Hp.
    apply orb_false_iff in Hp as [Hc Hp]. rewrite Ascii.eqb_sym in Hc.
    cbn [list_ascii_of_string String.append GoSprintf.sprintf]. rewrite Hc.
    rewrite (IH Hp). reflexivity.
Qed.

Lemma printed_error_v (prefix e : string) :
  GoSprintf.one_of "%" prefix = false ->
  GoSprintf.printed (prefix ++ "%v") [GoSprintf.AError e] = prefix ++ e.
Proof.
  intros Hp. unfold GoSprintf.printed, GoSprintf.Sprintf. rewrite (sprintf_error_v _ _ Hp).
  reflexivity.
Qed.

Lemma print_each_all (line : Torrent -> string) ts :
  print_each line (map Some ts) = (map line ts, None).
Proof. induction ts as [|t ts IH]; cbn; [reflexivity | rewrite IH; reflexivity]. Qed.

Lemma print_each_nil_element (line : Torrent -> string) pre post :
  print_each line (map Some pre ++ None :: post)%list = (map line pre, Some nil_deref).
Proof. induction pre as [|t pre IH]; cbn; [reflexivity | rewrite IH; reflexivity]. Qed.

(** [transmission_cli] prints one line per torrent, in the order [ListAll]
    returns them, and prints the status with the verb [%s], which Go does not
    apply to an [int64]: the line reads [name (id) %!s(int64=status)]. A nil
    torrent ends the run with a panic after the lines of the torrents before
    it; a [ListAll] error ends it through [log.Fatalf] with the message
    [ListAll error: ] and the error text, nothing printed. *)
Theorem cli_lists_status_as_bad_verb rules url_ok srv a u p w :
  let w1 := mkWorld (mkTransmission (normalize_address a) u p "") (sent w) in
  let line t := Torrent_string t "Name" ++ " (" ++ GoSprintf.dec (Torrent_int64 t "Id") ++
                ") %!s(int64=" ++ GoSprintf.dec (Torrent_int64 t "Status") ++ ")" ++
                TransmissionCli.nl in
  let run := TransmissionCli.main rules url_ok srv a u p w in
  (forall ts, fst (ListAll rules url_ok srv w1) = Ok (map Some ts) ->
     fst (fst run) = map line ts /\ snd (fst run) = Exit0) /\
  (forall pre post, fst (ListAll rules url_ok srv w1) = Ok (map Some pre ++ None :: post)%list ->
     fst (fst run) = map line pre /\ snd (fst run) = ExitPanic nil_deref) /\
  (forall e, fst (ListAll rules url_ok srv w1) = Err e ->
     fst (fst run) = [] /\ snd (fst run) = ExitFatal ("ListAll error: " ++ e)).
Proof.
  cbn zeta. unfold TransmissionCli.main, New.
  destruct (ListAll rules url_ok srv (mkWorld (mkTransmission (normalize_address a) u p "") (sent w)))
    as [res w'].
  cbn [fst]. split; [|split].
  - intros ts ->. rewrite print_each_all. cbn. split; [|reflexivity].
    apply map_ext. intros t. apply cli_line_text.
  - intros pre post ->. rewrite print_each_nil_element. cbn. split; [|reflexivity].
    apply map_ext. intros t. apply cli_line_text.
  - intros e ->. cbn. split; [reflexivity|].
    f_equal. exact (printed_error_v "ListAll error: " e eq_refl).
Qed.

Lemma cli_lists_status_as_bad_verb_witness :
  fst (fst (TransmissionCli.main PreGo110 (fun _ => true) (srv_const (ok_response listing_body))
                                 "localhost:9091" "" "" w0)) =
    ["a (1) %!s(int64=4)" ++ TransmissionCli.nl; "b (2) %!s(int64=16)" ++ TransmissionCli.nl].
Proof.
  apply (proj1 (cli_lists_status_as_bad_verb PreGo110 (fun _ => true)
                  (srv_const (ok_response listing_body)) "localhost:9091" "" "" w0)
           [set_field "Status" (VInt64 4) (set_field "Name" (VString "a")
              (set_field "Id" (VInt64 1) zero_Torrent));
            set_field "Status" (VInt64 16) (set_field "Name" (VString "b")
              (set_field "Id" (VInt64 2) zero_Torrent))]).
  vm_compute. reflexivity.
Defined.

Lemma ListAll_world rules url_ok srv w :
  snd (ListAll rules url_ok srv w) = snd (doRPC url_ok srv (decode_getResponse rules) listing_req w).
Proof.
  unfold ListAll, bind. fold listing_req.
  destruct (doRPC url_ok srv (decode_getResponse rules) listing_req w) as [[resp|e|m] w'];
    try reflexivity.
  destruct (getResponse_base resp) as [rb|]; [|reflexivity].
  destruct (negb (String.eqb (Result rb) "success")); [reflexivity|].
  destruct (getResponse_Arguments resp); reflexivity.
Qed.

Lemma doRPC_sent_shape {R : Type} (decode : json -> R + string) url_ok srv req w :
  exists new, sent (snd (doRPC url_ok srv decode req w)) = (sent w ++ new)%list /\
    (length new <= 2)%nat /\ Forall (fun h => Some (hr_body h) = Some req) new.
Proof.
  rewrite doRPC_effect. cbn zeta.
  destruct (url_ok (address (client w))).
  2: { exists []. split; [rewrite app_nil_r; reflexivity | split; [cbn; lia | constructor]]. }
  destruct (srv (sent w) (build_request (client w) req)) as [r|e].
  - destruct (Z.eqb (StatusCode r) 409).
    + destruct (session_header r) as [[|v [|v' l]]|]; cbn;
        (eexists; split; [reflexivity | split; [cbn; lia | repeat constructor]]).
    + cbn; eexists; split; [reflexivity | split; [cbn; lia | repeat constructor]].
  - cbn; eexists; split; [reflexivity | split; [cbn; lia | repeat constructor]].
Qed.

Lemma torrentRequests_sent_shape rules url_ok srv name x w :
  String.eqb name "" = false ->
  exists new, sent (snd (torrentRequests rules url_ok srv name [x] w)) = (sent w ++ new)%list /\
    (length new <= 2)%nat /\
    Forall (fun h => Some (hr_body h) =
                     Some (JObj [("method", JStr name); ("tag", JInt 1);
                                 ("arguments", JObj [("ids", JArr [JInt x])])])) new.
Proof.
  intros Hn. rewrite (torrentRequests_world rules url_ok srv name [x] w); [|discriminate].
  replace (JObj [("method", JStr name); ("tag", JInt 1); ("arguments", JObj [("ids", JArr [JInt x])])])
    with (marshal_torrentRequestsRequest name [x]);
    [apply doRPC_sent_shape | unfold marshal_torrentRequestsRequest, marshal_requestBase; rewrite Hn; reflexivity].
Qed.

Lemma report_world format (op : M unit) w :
  snd (Part000Cli.report format op w) = snd (op w).
Proof. unfold Part000Cli.report. destruct (op w) as [[u|e|m] w']; reflexivity. Qed.

(** One run of the [part_000] tool performs one operation at most, picked
    by the first set flag in the order [-list], [-start], [-startnow],
    [-stop], [-remove] (an id flag is set when it is not -1, so -1 cannot be
    given as an id): every request it sends carries that operation's body,
    there are at most two of them (the retry after a 409), and none is sent
    when no flag is set. [Verify] and [Reannounce] are never run. *)
Theorem tool_runs_one_operation rules url_ok srv line f w :
  let w' := snd (Part000Cli.main rules url_ok srv line f w) in
  let selected :=
    if Part000Cli.f_list f then Some listing_req
    else option_map (fun '(name, x) => JObj [("method", JStr name); ("tag", JInt 1);
                                              ("arguments", JObj [("ids", JArr [JInt x])])])
           (find (fun '(_, x) => negb (Z.eqb x (-1)))
                 [("torrent-start", Part000Cli.f_start f); ("torrent-start-now", Part000Cli.f_startNow f);
                  ("torrent-stop", Part000Cli.f_stop f); ("torrent-remove", Part000Cli.f_remove f)]) in
  exists new, sent w' = (sent w ++ new)%list /\ (length new <= 2)%nat /\
    Forall (fun h => Some (hr_body h) = selected) new.
Proof.
  cbn zeta. unfold Part000Cli.main, New.
  set (w1 := mkWorld _ (sent w)).
  assert (Hw1 : sent w1 = sent w) by reflexivity. rewrite <- Hw1.
  destruct (Part000Cli.f_list f).
  - assert (Hs : snd (match ListAll rules url_ok srv w1 with
                      | (Err err, w') => ([], ExitFatal (GoSprintf.printed "ListAll error: %v"
                                                        [GoSprintf.AError err]), w')
                      | (Panic m, w') => ([], ExitPanic m, w')
                      | (Ok torrents, w') =>
                          let '(out, p) := print_each line torrents in
                          (out, match p with None => Exit0 | Some m => ExitPanic m end, w')
                      end) = snd (ListAll rules url_ok srv w1)).
    { destruct (ListAll rules url_ok srv w1) as [[ts|e|m] w']; try reflexivity.
      cbn. destruct (print_each line ts); reflexivity. }
    rewrite Hs, ListAll_world. apply doRPC_sent_shape.
  - unfold Start, StartNow, Stop, Remove. cbn [find].
    destruct (Z.eqb (Part000Cli.f_start f) (-1)); cbn [negb find option_map].
    2: { rewrite report_world. apply torrentRequests_sent_shape. reflexivity. }
    destruct (Z.eqb (Part000Cli.f_startNow f) (-1)); cbn [negb find option_map].
    2: { rewrite report_world. apply torrentRequests_sent_shape. reflexivity. }
    destruct (Z.eqb (Part000Cli.f_stop f) (-1)); cbn [negb find option_map].
    2: { rewrite report_world. apply torrentRequests_sent_shape. reflexivity. }
    destruct (Z.eqb (Part000Cli.f_remove f) (-1)); cbn [negb find option_map].
    2: { rewrite report_world. apply torrentRequests_sent_shape. reflexivity. }
    exists []. split; [rewrite app_nil_r; reflexivity | split; [cbn; lia | constructor]].
Qed.


Lemma report_fatal (format : string) (op : M unit) w (e : string) :
  fst (op w) = Err e ->
  fst (Part000Cli.report format op w) = ([], ExitFatal (GoSprintf.printed format [GoSprintf.AError e])).
Proof.
  intros H. unfold Part000Cli.report. destruct (op w) as [res w']. cbn in H. subst res. reflexivity.
Qed.

(** When the operation the [part_000] tool runs fails with the error [e],
    the tool ends through [log.Fatalf]; the message names the operation
    wrongly for [-start] and [-stop]: [ListAll error: e] for both, against
    [StartNow error: e] and [Remove error: e] for the other two. *)
Theorem tool_error_labels rules url_ok srv line f w name x label e :
  Part000Cli.f_list f = false ->
  find (fun '(_, x, _) => negb (Z.eqb x (-1)))
       [("torrent-start", Part000Cli.f_start f, "ListAll error: ");
        ("torrent-start-now", Part000Cli.f_startNow f, "StartNow error: ");
        ("torrent-stop", Part000Cli.f_stop f, "ListAll error: ");
        ("torrent-remove", Part000Cli.f_remove f, "Remove error: ")] = Some (name, x, label) ->
  fst (torrentRequests rules url_ok srv name [x]
         (mkWorld (mkTransmission (normalize_address (Part000Cli.f_address f))
                                  (Part000Cli.f_username f) (Part000Cli.f_password f) "")
                  (sent w))) = Err e ->
  fst (Part000Cli.main rules url_ok srv line f w) = ([], ExitFatal (label ++ e)).
Proof.
  intros Hl Hf He. unfold Part000Cli.main, New. rewrite Hl.
  unfold Start, StartNow, Stop, Remove. cbn [find] in Hf.
  destruct (Z.eqb (Part000Cli.f_start f) (-1)); cbn [negb] in Hf |- *.
  2: { injection Hf as <- <- <-. rewrite (report_fatal _ _ _ e He).
    f_equal. f_equal. exact (printed_error_v "ListAll error: " e eq_refl). }
  destruct (Z.eqb (Part000Cli.f_startNow f) (-1)); cbn [negb] in Hf |- *.
  2: { injection Hf as <- <- <-. rewrite (report_fatal _ _ _ e He).
    f_equal. f_equal. exact (printed_error_v "StartNow error: " e eq_refl). }
  destruct (Z.eqb (Part000Cli.f_stop f) (-1)); cbn [negb] in Hf |- *.
  2: { injection Hf as <- <- <-. rewrite (report_fatal _ _ _ e He).
    f_equal. f_equal. exact (printed_error_v "ListAll error: " e eq_refl). }
  destruct (Z.eqb (Part000Cli.f_remove f) (-1)); cbn [negb] in Hf |- *.
  2: { injection Hf as <- <- <-. rewrite (report_fatal _ _ _ e He).
    f_equal. f_equal. exact (printed_error_v "Remove error: " e eq_refl). }
  discriminate.
Qed.

Lemma tool_error_labels_witness :
  fst (Part000Cli.main PreGo110 (fun _ => true) (srv_result "torrent not found") (fun _ => "")
         (Part000Cli.mkFlags "localhost:9091" "" "" false (-1) (-1) 7 (-1)) w0) =
    ([], ExitFatal ("ListAll error: " ++ "torrent not found")).
Proof.
  apply (tool_error_labels PreGo110 (fun _ => true) (srv_result "torrent not found") (fun _ => "")
           (Part000Cli.mkFlags "localhost:9091" "" "" false (-1) (-1) 7 (-1)) w0
           "torrent-stop" 7 "ListAll error: " "torrent not found");
    [reflexivity | reflexivity | vm_compute; reflexivity].
Defined.
